(** * pushover: a shallow embedding of [pushover/__init__.py]

    The module builds two kinds of payload ([Message], [Glance]) and sends
    them with a [Client] over HTTP.  Python objects become records, the
    constructors become functions into an exception monad, and the client
    methods become computations over an explicit program state (object heap,
    issued requests, opened files, standard output).

    Modelling conventions
    - a Python [str] is a [string]; slicing [s[0:n]] is [substring 0 n s];
    - a Python [int] is a [Z], a Python [float] is a [spec_float];
    - a dynamically typed value is a [pyval];
    - a [dict] with string keys is a [gmap string pyval];
    - the file system, [mimetypes.guess_type], the HTTP server and
      [float.__repr__] are parameters of the sections that need them. *)

From Stdlib Require Import ZArith String Ascii List Lia.
From Stdlib Require Import Floats.SpecFloat.
From stdpp Require Import base option gmap strings list fin_maps pretty.

Local Open Scope string_scope.
Local Open Scope Z_scope.

(** ** Exceptions and the exception monad *)

Inductive exn : Type :=
| ValueError (msg : string)
| FileNotFoundError (msg : string)
| OSError (msg : string)          (* any other [OSError] subclass *)
| TypeError (msg : string)
| KeyError (key : string)
| AttributeError (msg : string)
| RequestException (msg : string) (* raised by the [requests] library *).

Inductive result (A : Type) : Type :=
| Ok (a : A)
| Raise (e : exn).
Arguments Ok {A} a.
Arguments Raise {A} e.

Global Instance result_ret : MRet result := λ A a, Ok a.

Global Instance result_bind : MBind result := λ A B k r,
  match r with
  | Ok a => k a
  | Raise e => Raise e
  end.

(** [try: r except FileNotFoundError: h] *)
Definition except_FileNotFoundError {A : Type} (r : result A) (h : result A)
  : result A :=
  match r with
  | Raise (FileNotFoundError _) => h
  | _ => r
  end.

Definition is_ok {A : Type} (r : result A) : bool :=
  match r with Ok _ => true | Raise _ => false end.

(** ** Python values *)

Inductive pyval : Type :=
| PyNone
| PyBool (b : bool)
| PyInt (z : Z)
| PyFloat (f : spec_float)
| PyStr (s : string).

(** [bool] is a subclass of [int]. *)
Definition isinstance_int (v : pyval) : bool :=
  match v with PyInt _ | PyBool _ => true | _ => false end.

Definition is_None (v : pyval) : bool :=
  match v with PyNone => true | _ => false end.

(** Exact comparison of a float with an integer; [None] for a NaN. *)
Definition float_cmp_Z (f : spec_float) (z : Z) : option comparison :=
  match f with
  | S754_nan => None
  | S754_infinity s => Some (if s then Lt else Gt)
  | S754_zero _ => Some (0 ?= z)
  | S754_finite s m e =>
      let v := if s then Z.neg m else Z.pos m in
      Some (if 0 <=? e then v * 2 ^ e ?= z else v ?= z * 2 ^ (- e))
  end.

Definition Z_of_bool (b : bool) : Z := if b then 1 else 0.

(** [a == b] *)
Definition py_eq (a b : pyval) : bool :=
  match a, b with
  | PyNone, PyNone => true
  | PyStr s, PyStr t => String.eqb s t
  | PyBool x, PyBool y => Z_of_bool x =? Z_of_bool y
  | PyBool x, PyInt y => Z_of_bool x =? y
  | PyInt x, PyBool y => x =? Z_of_bool y
  | PyInt x, PyInt y => x =? y
  | PyFloat f, PyBool y =>
      match float_cmp_Z f (Z_of_bool y) with Some Eq => true | _ => false end
  | PyFloat f, PyInt y =>
      match float_cmp_Z f y with Some Eq => true | _ => false end
  | PyBool x, PyFloat g =>
      match float_cmp_Z g (Z_of_bool x) with Some Eq => true | _ => false end
  | PyInt x, PyFloat g =>
      match float_cmp_Z g x with Some Eq => true | _ => false end
  | PyFloat f, PyFloat g => SFeqb f g
  | _, _ => false
  end.

(** [a != b] *)
Definition py_ne (a b : pyval) : bool := negb (py_eq a b).

(** [lo <= v], for an integer [lo]; an unorderable operand raises. *)
Definition int_le_py (lo : Z) (v : pyval) : result bool :=
  match v with
  | PyBool b => Ok (lo <=? Z_of_bool b)
  | PyInt z => Ok (lo <=? z)
  | PyFloat f =>
      Ok match float_cmp_Z f lo with
         | Some Eq | Some Gt => true
         | _ => false
         end
  | PyNone | PyStr _ =>
      Raise (TypeError "'<=' not supported between instances")
  end.

(** [v <= hi], for an integer [hi]. *)
Definition py_le_int (v : pyval) (hi : Z) : result bool :=
  match v with
  | PyBool b => Ok (Z_of_bool b <=? hi)
  | PyInt z => Ok (z <=? hi)
  | PyFloat f =>
      Ok match float_cmp_Z f hi with
         | Some Eq | Some Lt => true
         | _ => false
         end
  | PyNone | PyStr _ =>
      Raise (TypeError "'<=' not supported between instances")
  end.

(** The chained comparison [lo <= v <= hi]: the second comparison is
    evaluated only when the first one holds. *)
Definition chained_le (lo : Z) (v : pyval) (hi : Z) : result bool :=
  int_le_py lo v ≫= λ b : bool, if b then py_le_int v hi else Ok false.

(** ** Strings and dictionaries *)

(** [s[0:stop]] *)
Definition slice0 (s : string) (stop : nat) : string := substring 0 stop s.
Arguments slice0 : simpl never.

(** [x in xs] for a list of strings. *)
Definition str_in (x : string) (xs : list string) : bool :=
  existsb (String.eqb x) xs.

(** [{k1: v1, ..., kn: vn}]: the items are stored from left to right, so a
    later item overwrites an earlier one with the same key. *)
Definition dict_of_items (items : list (string * pyval)) : gmap string pyval :=
  foldl (λ d kv, <[kv.1 := kv.2]> d) ∅ items.

(** [{k: v for k, v in items if keep v}] *)
Definition dict_comprehension (keep : pyval → bool)
    (items : list (string * pyval)) : gmap string pyval :=
  dict_of_items (filter (λ kv, keep kv.2 = true) items).

(** [d.update(other)]: the entries of [other] win. *)
Definition dict_update (d other : gmap string pyval) : gmap string pyval :=
  other ∪ d.

(** ** Module constants *)

Definition SOUNDS : list string :=
  [ "pushover"; "bike"; "bugle"; "cashregister"; "classical"; "cosmic";
    "falling"; "gamelan"; "incoming"; "intermission"; "magic"; "mechanic";
    "pianobar"; "siren"; "spacealarm"; "tugboat"; "alien"; "climb";
    "persistent"; "echo"; "updown"; "vibrate"; "none" ].

Definition PRIORITIES : list Z := [ -2; -1; 0; 1; 2 ].

Definition ATTACHMENT_TYPES : list string := [ "image/jpeg"; "image/png" ].

(** ** The environment *)

(** What [open(path)] does. *)
Inductive open_result : Type :=
| Opened
| NoSuchFile (os_msg : string)   (* raises [FileNotFoundError] *)
| OpenFails (os_msg : string)    (* raises another [OSError] *).

Definition py_open (fs : string → open_result) (path : string) : result unit :=
  match fs path with
  | Opened => Ok tt
  | NoSuchFile msg => Raise (FileNotFoundError msg)
  | OpenFails msg => Raise (OSError msg)
  end.

(** A [requests.Response]: the status code and what [r.json()] gives, a
    decoded object with scalar members or an exception. *)
Record response : Type := {
  status_code : Z;
  resp_json : result (gmap string pyval)
}.

(** [d[key]] *)
Definition getitem (d : gmap string pyval) (key : string) : result pyval :=
  match d !! key with
  | Some v => Ok v
  | None => Raise (KeyError key)
  end.

(** The [files=] argument of a multipart POST: the form field, the file
    name, and the MIME type sent with the file's bytes. *)
Record upload : Type := {
  upload_field : string;
  upload_name : string;
  upload_mime : option string
}.

(** ** class Message *)

Module Message.

(** The attributes of an instance.  [_mime_test] is [None] while the
    attribute has not been assigned, and otherwise holds the first
    component of [mimetypes.guess_type], which may itself be [None]. *)
Record t : Type := {
  message : string;
  title : string;
  _attachment : string;
  _mime_test : option (option string);
  device : string;
  url : string;
  url_title : string;
  priority : Z;
  sound : string;
  timestamp : spec_float;
  retry : Z;
  expire : Z;
  response_data : option response;
  _api_callback : string
}.

Definition set_response_data (r : response) (self : t) : t :=
  {| message := message self; title := title self;
     _attachment := _attachment self; _mime_test := _mime_test self;
     device := device self; url := url self; url_title := url_title self;
     priority := priority self; sound := sound self;
     timestamp := timestamp self; retry := retry self;
     expire := expire self; response_data := Some r;
     _api_callback := _api_callback self |}.

(** [mime not in ATTACHMENT_TYPES], where [mime] may be [None]. *)
Definition mime_not_in (mime : option string) (types : list string) : bool :=
  match mime with
  | Some ty => negb (str_in ty types)
  | None => true
  end.

Section Env.
(** [open] and [mimetypes.guess_type(path)[0]]. *)
Variable fs : string → open_result.
Variable guess_type : string → option string.

(** The [if attachment != "": try: ... except FileNotFoundError: ...]
    block of the constructor; the result is the new [_mime_test]. *)
Definition check_attachment (attachment : string)
  : result (option (option string)) :=
  if negb (String.eqb attachment "") then
    except_FileNotFoundError
      (py_open fs attachment ;;
       let mime := guess_type attachment in
       if mime_not_in mime ATTACHMENT_TYPES then
         Raise (ValueError "Attachment file must be valid jpeg/png image!")
       else Ok (Some mime))
      (Raise (FileNotFoundError "Must input a valid file!"))
  else Ok None.

(** [Message.__init__]; [message] is [None] or a [str], the other
    arguments have their annotated types, on which [str], [int] and
    [float] are the identity. *)
Definition __init__ (message : option string)
    (title attachment device url url_title : string) (priority : Z)
    (sound : string) (timestamp : spec_float) (retry expire : Z)
  : result t :=
  match message with
  | None => Raise (ValueError "'message' cannot be None!")
  | Some message =>
      mime ← check_attachment attachment;
      Ok {| message := slice0 message 4096;
            title := slice0 title 250;
            _attachment := attachment;
            _mime_test := mime;
            device := device;
            url := slice0 url 512;
            url_title := slice0 url_title 100;
            priority := priority;
            sound := sound;
            timestamp := timestamp;
            retry := retry;
            expire := expire;
            response_data := None;
            _api_callback := "messages.json" |}
  end.

(** The [attachment] property: [""] (here [None]) without an
    attachment, and otherwise the [files] mapping around a freshly
    opened handle. *)
Definition attachment (self : t) : result (option upload) :=
  if negb (String.eqb (_attachment self) "") then
    py_open fs (_attachment self) ;;
    match _mime_test self with
    | Some mime =>
        Ok (Some {| upload_field := "attachment";
                    upload_name := _attachment self;
                    upload_mime := mime |})
    | None =>
        Raise
          (AttributeError "'Message' object has no attribute '_mime_test'")
    end
  else Ok None.

(** Whether evaluating the [attachment] property opens the file. *)
Definition attachment_opens (self : t) : bool :=
  negb (String.eqb (_attachment self) "")
  && is_ok (py_open fs (_attachment self)).
End Env.

(** The tuple of pairs the [json] property ranges over. *)
Definition fields (self : t) : list (string * pyval) :=
  [ ("message", PyStr (message self)); ("title", PyStr (title self));
    ("device", PyStr (device self)); ("url", PyStr (url self));
    ("url_title", PyStr (url_title self));
    ("priority", PyInt (priority self)); ("sound", PyStr (sound self));
    ("timestamp", PyFloat (timestamp self));
    ("retry", PyInt (retry self)); ("expire", PyInt (expire self)) ].

(** The [json] property; the filter is [v != ""]. *)
Definition json (self : t) : gmap string pyval :=
  dict_comprehension (λ v, py_ne v (PyStr "")) (fields self).

End Message.

(** ** class Glance *)

Module Glance.

Record t : Type := {
  title : string;
  text : string;
  subtext : string;
  count : pyval;
  percent : pyval;
  _api_callback : string;
  response_data : option response
}.

Definition set_response_data (r : response) (self : t) : t :=
  {| title := title self; text := text self; subtext := subtext self;
     count := count self; percent := percent self;
     _api_callback := _api_callback self; response_data := Some r |}.

(** [if isinstance(v, str): field = v[0:100]], the field being [""]
    before. *)
Definition text_field (v : pyval) : string :=
  match v with
  | PyStr s => slice0 s 100
  | _ => ""
  end.

(** [not isinstance(percent, int) and not 0 <= percent <= 100]: the
    comparison is reached only when the type test fails. *)
Definition percent_rejected (percent : pyval) : result bool :=
  if negb (isinstance_int percent) then
    inrange ← chained_le 0 percent 100; Ok (negb inrange)
  else Ok false.

(** [Glance.__init__] *)
Definition __init__ (title text subtext count percent : pyval) : result t :=
  let text' := text_field text in
  let title' := text_field title in
  let subtext' := text_field subtext in
  if negb (isinstance_int count) then
    Raise (ValueError "'count' must be an integer!")
  else
    bad ← percent_rejected percent;
    if bad : bool then
      Raise (ValueError "'percent' must be an integer between 0 and 100!")
    else
      Ok {| title := title'; text := text'; subtext := subtext';
            count := count; percent := percent;
            _api_callback := "glances.json"; response_data := None |}.

(** The tuple of pairs the [json] property ranges over. *)
Definition fields (self : t) : list (string * pyval) :=
  [ ("title", PyStr (title self)); ("text", PyStr (text self));
    ("subtext", PyStr (subtext self)); ("count", count self);
    ("percent", percent self) ].

(** The [json] property; the filter is [v is not None or v != 0]. *)
Definition json (self : t) : gmap string pyval :=
  dict_comprehension (λ v, negb (is_None v) || py_ne v (PyInt 0))
    (fields self).

End Glance.

(** ** class Client *)

(** [template.format(arg)] for a template with one [{}] field. *)
Fixpoint format1 (template arg : string) : string :=
  match template with
  | String "{" (String "}" rest) => arg +:+ rest
  | String c rest => String c (format1 rest arg)
  | EmptyString => EmptyString
  end.

Inductive http_method : Type := GET | POST.

(** A call of [requests.get] or [requests.post] with its keyword
    arguments. *)
Record request : Type := {
  req_method : http_method;
  req_url : string;
  req_data : option (gmap string pyval);
  req_json : option (gmap string pyval);
  req_params : option (gmap string pyval);
  req_files : option upload
}.

(** The objects a client is given to send. *)
Inductive payload : Type :=
| MessageObj (m : Message.t)
| GlanceObj (g : Glance.t).

Definition payload_json (p : payload) : gmap string pyval :=
  match p with
  | MessageObj m => Message.json m
  | GlanceObj g => Glance.json g
  end.

Definition payload_api_callback (p : payload) : string :=
  match p with
  | MessageObj m => Message._api_callback m
  | GlanceObj g => Glance._api_callback g
  end.

Definition payload_response_data (p : payload) : option response :=
  match p with
  | MessageObj m => Message.response_data m
  | GlanceObj g => Glance.response_data g
  end.

Definition payload_set_response_data (r : response) (p : payload) : payload :=
  match p with
  | MessageObj m => MessageObj (Message.set_response_data r m)
  | GlanceObj g => GlanceObj (Glance.set_response_data r g)
  end.

Module Client.

(** Payload objects are shared between the caller and the client, so
    they live in a heap and are named by their address. *)
Definition loc : Type := positive.

Record t : Type := {
  user_key : string;
  api_token : string;
  _api_url : string;
  last_message : option loc;
  _api_verify : string;
  _api_limits : string;
  _api_receipts : string
}.

(** [Client.__init__] *)
Definition __init__ (user_key api_token : string) : t :=
  {| user_key := user_key;
     api_token := api_token;
     _api_url := "https://api.pushover.net/1/";
     last_message := None;
     _api_verify := "users/validate.json";
     _api_limits := "apps/limits.json";
     _api_receipts := "receipts/{}.json" |}.

Definition set_last_message (msg : loc) (self : t) : t :=
  {| user_key := user_key self; api_token := api_token self;
     _api_url := _api_url self; last_message := Some msg;
     _api_verify := _api_verify self; _api_limits := _api_limits self;
     _api_receipts := _api_receipts self |}.

(** The program state: the client object, the heap of payload objects,
    the HTTP requests issued so far (oldest first), the paths the
    client's methods have opened, and the lines printed. *)
Record state : Type := {
  client : t;
  heap : gmap loc payload;
  requests : list request;
  opened : list string;
  stdout : list string
}.

Definition prog (A : Type) : Type := state → result A * state.

Global Instance prog_ret : MRet prog := λ A a σ, (Ok a, σ).

Global Instance prog_bind : MBind prog := λ A B k c σ,
  match c σ with
  | (Ok a, σ') => k a σ'
  | (Raise e, σ') => (Raise e, σ')
  end.

Definition raise {A : Type} (e : exn) : prog A := λ σ, (Raise e, σ).

Definition lift {A : Type} (r : result A) : prog A := λ σ, (r, σ).

Definition get_self : prog t := λ σ, (Ok (client σ), σ).

Definition put_self (c : t) : prog unit := λ σ,
  (Ok tt, {| client := c; heap := heap σ; requests := requests σ;
             opened := opened σ; stdout := stdout σ |}).

(** Reading an object through a reference.  Python has no dangling
    references; the model answers one with an exception no source line
    raises. *)
Definition deref (l : loc) : prog payload := λ σ,
  match heap σ !! l with
  | Some p => (Ok p, σ)
  | None => (Raise (AttributeError "dangling reference"), σ)
  end.

Definition assign (l : loc) (p : payload) : prog unit := λ σ,
  (Ok tt, {| client := client σ; heap := <[l := p]> (heap σ);
             requests := requests σ; opened := opened σ;
             stdout := stdout σ |}).

(** [print(line)] *)
Definition print (line : string) : prog unit := λ σ,
  (Ok tt, {| client := client σ; heap := heap σ; requests := requests σ;
             opened := opened σ; stdout := stdout σ ++ [line] |}).

Section Env.
Variable fs : string → open_result.
(** The server: its answer to a request, given the earlier ones;
    [Raise] is a transport failure. *)
Variable http : list request → request → result response.
(** [repr] of a float. *)
Variable float_repr : spec_float → string.

(** [str(v)] *)
Definition py_str (v : pyval) : string :=
  match v with
  | PyNone => "None"
  | PyBool true => "True"
  | PyBool false => "False"
  | PyInt z => pretty z
  | PyFloat f => float_repr f
  | PyStr s => s
  end.

(** [requests.get] and [requests.post]: the request is issued, then
    the server answers or the transport fails. *)
Definition requests_call (rq : request) : prog response := λ σ,
  (http (requests σ) rq,
   {| client := client σ; heap := heap σ;
      requests := requests σ ++ [rq]; opened := opened σ;
      stdout := stdout σ |}).

Definition requests_post (url : string) (data json : option (gmap string pyval))
    (files : option upload) : prog response :=
  requests_call {| req_method := POST; req_url := url; req_data := data;
                   req_json := json; req_params := None;
                   req_files := files |}.

Definition requests_get (url : string) (params : gmap string pyval)
  : prog response :=
  requests_call {| req_method := GET; req_url := url; req_data := None;
                   req_json := None; req_params := Some params;
                   req_files := None |}.

(** Evaluating [msg.attachment]: a [Message] with an attachment
    opens the file; a [Glance] has no such attribute. *)
Definition eval_attachment (p : payload) : prog (option upload) :=
  match p with
  | MessageObj m => λ σ,
      (Message.attachment fs m,
       if Message.attachment_opens fs m then
         {| client := client σ; heap := heap σ; requests := requests σ;
            opened := opened σ ++ [Message._attachment m];
            stdout := stdout σ |}
       else σ)
  | GlanceObj _ =>
      raise (AttributeError "'Glance' object has no attribute 'attachment'")
  end.

(** [getattr(msg, "attachment", "")]: the default [""] (here [None])
    replaces an [AttributeError]. *)
Definition getattr_attachment (p : payload) : prog (option upload) := λ σ,
  match eval_attachment p σ with
  | (Raise (AttributeError _), σ') => (Ok None, σ')
  | other => other
  end.

(** [Client.verify_user] *)
Definition verify_user : prog response :=
  self ← get_self;
  r ← requests_post (_api_url self +:+ _api_verify self) None
         (Some (dict_of_items [ ("token", PyStr (api_token self));
                                ("user", PyStr (user_key self)) ])) None;
  body ← lift (resp_json r);
  status ← lift (getitem body "status");
  (if py_eq status (PyInt 1) then print "User is verified!"
   else print "User is not verified!");;
  mret r.

(** [Client.get_limits] *)
Definition get_limits : prog response :=
  self ← get_self;
  requests_get (_api_url self +:+ _api_limits self)
    (dict_of_items [ ("token", PyStr (api_token self)) ]).

(** [Client.send] *)
Definition send (msg : loc) : prog response :=
  self ← get_self;
  obj ← deref msg;
  let data :=
    dict_update
      (dict_of_items [ ("token", PyStr (api_token self));
                       ("user", PyStr (user_key self)) ])
      (payload_json obj) in
  att ← getattr_attachment obj;
  r ← match att with
      | None =>
          requests_post (_api_url self +:+ payload_api_callback obj)
            (Some data) None None
      | Some _ =>
          files ← eval_attachment obj;
          requests_post (_api_url self +:+ payload_api_callback obj)
            (Some data) None files
      end;
  assign msg (payload_set_response_data r obj);;
  put_self (set_last_message msg self);;
  mret r.

(** [Client.get_receipt]; [receipt] is [None] or a [str]. *)
Definition get_receipt (receipt : option string) : prog response :=
  self ← get_self;
  r ← match receipt with
      | None =>
          match last_message self with
          | None => raise (ValueError "No last message, please provide receipt!")
          | Some last =>
              obj ← deref last;
              sent ← match payload_response_data obj with
                     | Some sent => mret sent
                     | None =>
                         raise (AttributeError
                           "'NoneType' object has no attribute 'json'")
                     end;
              body ← lift (resp_json sent);
              id ← lift (getitem body "receipt");
              requests_get
                (_api_url self +:+ format1 (_api_receipts self) (py_str id))
                (dict_of_items [ ("token", PyStr (api_token self)) ])
          end
      | Some receipt =>
          requests_get
            (_api_url self +:+ format1 (_api_receipts self) receipt)
            (dict_of_items [ ("token", PyStr (api_token self)) ])
      end;
  body ← lift (resp_json r);
  ack ← lift (getitem body "acknowledged");
  print (format1 "Acknowledged: {}" (py_str ack));;
  mret r.
End Env.

End Client.

(** ** Example environment

    A small file system, MIME table and server, used to run the model on
    concrete inputs. *)

Module Example.

Definition fs (path : string) : open_result :=
  if String.eqb path "cat.png" then Opened
  else if String.eqb path "notes.txt" then Opened
  else NoSuchFile "[Errno 2] No such file or directory".

Definition guess_type (path : string) : option string :=
  if String.eqb path "cat.png" then Some "image/png"
  else if String.eqb path "notes.txt" then Some "text/plain"
  else None.

(** A text of 5000 characters. *)
Definition long_text : string := string_of_list_ascii (repeat "x"%char 5000).

(** The server accepts every request and hands out the receipt [r1]. *)
Definition accepted : response :=
  {| status_code := 200;
     resp_json := Ok (dict_of_items [ ("status", PyInt 1);
                                      ("receipt", PyStr "r1") ]) |}.

Definition http (earlier : list request) (rq : request) : result response :=
  Ok accepted.

(** The examples format no float. *)
Definition float_repr (f : spec_float) : string := "0.0".

(** [Message("test", title="Hi", timestamp=0.0)] *)
Definition hi : Message.t :=
  {| Message.message := "test"; Message.title := "Hi";
     Message._attachment := ""; Message._mime_test := None;
     Message.device := ""; Message.url := ""; Message.url_title := "";
     Message.priority := 0; Message.sound := "pushover";
     Message.timestamp := S754_zero false; Message.retry := 30;
     Message.expire := 10800; Message.response_data := None;
     Message._api_callback := "messages.json" |}.

(** [Message("test", sound="", timestamp=0.0)]: no optional text. *)
Definition bare : Message.t :=
  {| Message.message := "test"; Message.title := "";
     Message._attachment := ""; Message._mime_test := None;
     Message.device := ""; Message.url := ""; Message.url_title := "";
     Message.priority := 0; Message.sound := "";
     Message.timestamp := S754_zero false; Message.retry := 30;
     Message.expire := 10800; Message.response_data := None;
     Message._api_callback := "messages.json" |}.

(** A fresh client and one payload object, not yet sent. *)
Definition start : Client.state :=
  {| Client.client := Client.__init__ "user-key" "app-token";
     Client.heap := {[ 1%positive := MessageObj hi ]};
     Client.requests := []; Client.opened := []; Client.stdout := [] |}.

End Example.

(** ** Scenarios

    More states and servers to run the client on. *)

Module Scenario.

(** [Glance(title="Build", count=3, percent=40)] *)
Definition glance : Glance.t :=
  {| Glance.title := "Build"; Glance.text := ""; Glance.subtext := "";
     Glance.count := PyInt 3; Glance.percent := PyInt 40;
     Glance._api_callback := "glances.json"; Glance.response_data := None |}.

(** [Message("test", attachment="cat.png", timestamp=0.0)] *)
Definition cat : Message.t :=
  {| Message.message := "test"; Message.title := "";
     Message._attachment := "cat.png";
     Message._mime_test := Some (Some "image/png");
     Message.device := ""; Message.url := ""; Message.url_title := "";
     Message.priority := 0; Message.sound := "pushover";
     Message.timestamp := S754_zero false; Message.retry := 30;
     Message.expire := 10800; Message.response_data := None;
     Message._api_callback := "messages.json" |}.

(** The answer to a request for a receipt. *)
Definition acknowledged : response :=
  {| status_code := 200;
     resp_json := Ok (dict_of_items [ ("status", PyInt 1);
                                      ("acknowledged", PyInt 1) ]) |}.

(** The answer to a message that was no emergency: no receipt. *)
Definition plain : response :=
  {| status_code := 200;
     resp_json := Ok (dict_of_items [ ("status", PyInt 1);
                                      ("request", PyStr "q1") ]) |}.

(** A server that accepts what is posted and acknowledges receipts. *)
Definition http (earlier : list request) (rq : request) : result response :=
  match req_method rq with
  | POST => Ok Example.accepted
  | GET => Ok acknowledged
  end.

(** No connection. *)
Definition offline (earlier : list request) (rq : request)
  : result response :=
  Raise (RequestException "connection refused").

(** A file system on which nothing is found. *)
Definition no_files (path : string) : open_result :=
  NoSuchFile "[Errno 2] No such file or directory".

(** A fresh client, a message and a glance. *)
Definition two : Client.state :=
  {| Client.client := Client.__init__ "user-key" "app-token";
     Client.heap := <[2%positive := GlanceObj glance]>
                      {[ 1%positive := MessageObj Example.hi ]};
     Client.requests := []; Client.opened := []; Client.stdout := [] |}.

(** A fresh client and a message with an attachment. *)
Definition with_cat : Client.state :=
  {| Client.client := Client.__init__ "user-key" "app-token";
     Client.heap := {[ 1%positive := MessageObj cat ]};
     Client.requests := []; Client.opened := []; Client.stdout := [] |}.

(** A client whose last message was answered without a receipt. *)
Definition sent_plain : Client.state :=
  {| Client.client :=
       Client.set_last_message 1%positive
         (Client.__init__ "user-key" "app-token");
     Client.heap :=
       {[ 1%positive :=
            MessageObj (Message.set_response_data plain Example.hi) ]};
     Client.requests := []; Client.opened := []; Client.stdout := [] |}.

End Scenario.

(** ** Specification vocabulary *)

(** [stored] is [input] cut at [limit] characters: an initial segment of
    [input], the whole of it when it fits and exactly [limit] characters
    of it otherwise. *)
Definition truncated (limit : nat) (input stored : string) : Prop :=
  (∃ rest, input = stored +:+ rest)
  ∧ (String.length stored ≤ limit)%nat
  ∧ ((limit < String.length input)%nat → String.length stored = limit)
  ∧ ((String.length input ≤ limit)%nat → stored = input).

(** The attachments the constructor lets through: none, or a path that
    opens and is guessed to be a JPEG or PNG image. *)
Definition attachment_accepted (fs : string → open_result)
    (guess_type : string → option string) (attachment : string) : Prop :=
  attachment = ""
  ∨ (fs attachment = Opened
     ∧ (guess_type attachment = Some "image/jpeg"
        ∨ guess_type attachment = Some "image/png")).

(** What evaluating [obj.attachment] yields: the [files] of a Message when
    its file opens, and nothing for a Glance, which has no attachment. *)
Definition attachment_files (fs : string → open_result) (obj : payload)
    (files : option upload) : Prop :=
  match obj with
  | MessageObj m => Message.attachment fs m = Ok files
  | GlanceObj _ => files = None
  end.

(** The files [Client.send] opens: the attachment, once by the test for
    it and once more for the upload. *)
Definition opened_paths (files : option upload) : list string :=
  match files with
  | Some u => [upload_name u; upload_name u]
  | None => []
  end.

(** Python's truth value of an object. *)
Definition truthy (v : pyval) : bool :=
  match v with
  | PyNone => false
  | PyBool b => b
  | PyInt z => negb (z =? 0)
  | PyFloat f =>
      match f with S754_zero _ => false | _ => true end
  | PyStr s => negb (String.eqb s "")
  end.

(** A mapping without falsy values. *)
Definition omits_falsy (d : gmap string pyval) : Prop :=
  ∀ k v, d !! k = Some v → truthy v = true.

(** How a Glance stores a text argument: a string cut at 100 characters,
    and the empty string for an argument that is no string. *)
Definition glance_text (arg : pyval) (stored : string) : Prop :=
  match arg with
  | PyStr s => truncated 100 s stored
  | _ => stored = ""
  end.

(** [lo <= f <= hi] for a float [f], compared exactly. *)
Definition float_between (lo hi : Z) (f : spec_float) : Prop :=
  (float_cmp_Z f lo = Some Eq ∨ float_cmp_Z f lo = Some Gt)
  ∧ (float_cmp_Z f hi = Some Eq ∨ float_cmp_Z f hi = Some Lt).

(** The POST with which [Client.send] sends a payload. *)
Definition send_request (self : Client.t) (obj : payload)
    (files : option upload) : request :=
  {| req_method := POST;
     req_url := Client._api_url self +:+ payload_api_callback obj;
     req_data :=
       Some (dict_update
               (dict_of_items [ ("token", PyStr (Client.api_token self));
                                ("user", PyStr (Client.user_key self)) ])
               (payload_json obj));
     req_json := None; req_params := None; req_files := files |}.

(** The state a send leaves behind once the server has answered [r]. *)
Definition after_send (σ : Client.state) (msg : Client.loc) (obj : payload)
    (files : option upload) (r : response) : Client.state :=
  {| Client.client := Client.set_last_message msg (Client.client σ);
     Client.heap := <[msg := payload_set_response_data r obj]> (Client.heap σ);
     Client.requests :=
       Client.requests σ ++ [send_request (Client.client σ) obj files];
     Client.opened := Client.opened σ ++ opened_paths files;
     Client.stdout := Client.stdout σ |}.

(** The GET with which [Client.get_receipt] asks for the receipt [id]. *)
Definition receipt_request (self : Client.t) (id : string) : request :=
  {| req_method := GET;
     req_url :=
       Client._api_url self +:+ format1 (Client._api_receipts self) id;
     req_data := None; req_json := None;
     req_params :=
       Some (dict_of_items [ ("token", PyStr (Client.api_token self)) ]);
     req_files := None |}.

(** The POST with which [Client.verify_user] checks the credentials. *)
Definition verify_request (self : Client.t) : request :=
  {| req_method := POST;
     req_url := Client._api_url self +:+ Client._api_verify self;
     req_data := None;
     req_json :=
       Some (dict_of_items [ ("token", PyStr (Client.api_token self));
                             ("user", PyStr (Client.user_key self)) ]);
     req_params := None; req_files := None |}.

(** A state that differs from [σ] by requests and printed lines only. *)
Definition with_io (σ : Client.state) (new : list request)
    (out : list string) : Client.state :=
  {| Client.client := Client.client σ; Client.heap := Client.heap σ;
     Client.requests := Client.requests σ ++ new;
     Client.opened := Client.opened σ;
     Client.stdout := Client.stdout σ ++ out |}.

(** What a method that only asks the server may do to the state: issue at
    most one request and print at most one line.  A response it returns is
    the server's answer to the request it issued. *)
Definition asks_only (http : list request → request → result response)
    (method : Client.prog response) (σ : Client.state) : Prop :=
  ∃ new out,
    (method σ).2 = with_io σ new out
    ∧ (length new ≤ 1)%nat
    ∧ (length out ≤ 1)%nat
    ∧ ∀ r, (method σ).1 = Ok r →
           ∃ rq, new = [rq] ∧ http (Client.requests σ) rq = Ok r.

(** * Properties *)

(** ** Slicing *)

Section Slicing.
Implicit Types (s : string) (n : nat).

Lemma slice0_length s n :
  String.length (slice0 s n) = Nat.min n (String.length s).
Proof.
  unfold slice0. revert n.
  induction s as [|c s IH]; intros [|n]; simpl; auto.
Qed.

Lemma slice0_le s n : (String.length (slice0 s n) ≤ n)%nat.
Proof. rewrite slice0_length. lia. Qed.

Lemma slice0_exact s n :
  (n < String.length s)%nat → String.length (slice0 s n) = n.
Proof. rewrite slice0_length. lia. Qed.

Lemma slice0_short s n : (String.length s ≤ n)%nat → slice0 s n = s.
Proof.
  unfold slice0. revert n.
  induction s as [|c s IH]; intros [|n] Hn; simpl in *; auto; try lia.
  f_equal. apply IH. lia.
Qed.

(** The slice is an initial segment of the string it is taken from. *)
Lemma slice0_prefix s n : ∃ rest, s = slice0 s n +:+ rest.
Proof.
  unfold slice0. revert n.
  induction s as [|c s IH]; intros [|n].
  - by exists "".
  - by exists "".
  - by exists (String c s).
  - destruct (IH n) as [rest Hrest]. exists rest.
    change (String c s = String c (substring 0 n s +:+ rest)).
    by rewrite <- Hrest.
Qed.
End Slicing.

(** ** Dictionaries *)

Section Dictionaries.
Implicit Types (items : list (string * pyval)) (d : gmap string pyval).

Lemma foldl_insert_reverse items d :
  foldl (λ d kv, <[kv.1 := kv.2]> d) d items
  = foldr (λ kv d, <[kv.1 := kv.2]> d) d (reverse items).
Proof.
  revert d. induction items as [|kv items IH]; intros d; simpl; [done|].
  by rewrite IH, reverse_cons, foldr_app.
Qed.

Lemma dict_of_items_reverse items :
  dict_of_items items = list_to_map (reverse items).
Proof. apply foldl_insert_reverse. Qed.

(** With distinct keys, a dictionary display holds exactly its items. *)
Lemma dict_of_items_lookup items k v :
  NoDup items.*1 →
  dict_of_items items !! k = Some v ↔ (k, v) ∈ items.
Proof.
  intros Hnd. rewrite dict_of_items_reverse, <- elem_of_list_to_map.
  - apply elem_of_reverse.
  - by rewrite fmap_reverse, reverse_Permutation.
Qed.

Lemma dict_of_items_lookup_None items k :
  dict_of_items items !! k = None ↔ k ∉ items.*1.
Proof.
  rewrite dict_of_items_reverse, <- not_elem_of_list_to_map.
  by rewrite fmap_reverse, elem_of_reverse.
Qed.

Lemma NoDup_filter_keys (P : string * pyval → Prop) `{∀ x, Decision (P x)}
    items :
  NoDup items.*1 → NoDup (filter P items).*1.
Proof.
  intros Hnd. eapply sublist_NoDup; [exact Hnd|].
  apply fmap_sublist, sublist_filter.
Qed.

(** A comprehension over items with distinct keys keeps exactly the
    items whose value passes the filter. *)
Lemma dict_comprehension_lookup keep items k v :
  NoDup items.*1 →
  dict_comprehension keep items !! k = Some v
  ↔ (k, v) ∈ items ∧ keep v = true.
Proof.
  intros Hnd. unfold dict_comprehension.
  rewrite dict_of_items_lookup by by apply NoDup_filter_keys.
  rewrite list_elem_of_filter. simpl. tauto.
Qed.

Lemma dict_comprehension_lookup_None keep items k :
  NoDup items.*1 →
  dict_comprehension keep items !! k = None
  ↔ ∀ v, (k, v) ∈ items → keep v = false.
Proof.
  intros Hnd. rewrite eq_None_not_Some. unfold is_Some. split.
  - intros Hno v Hin. destruct (keep v) eqn:Hk; [|done].
    exfalso. apply Hno. exists v.
    by apply dict_comprehension_lookup.
  - intros Hall [v Hv]. apply dict_comprehension_lookup in Hv as [Hin Hk]; [|done].
    rewrite (Hall v Hin) in Hk. discriminate.
Qed.

Lemma dict_comprehension_keys keep items k :
  NoDup items.*1 →
  is_Some (dict_comprehension keep items !! k) → k ∈ items.*1.
Proof.
  intros Hnd [v Hv]. apply dict_comprehension_lookup in Hv as [Hin _]; [|done].
  apply list_elem_of_fmap. by exists (k, v).
Qed.

Lemma items_functional items k v1 v2 :
  NoDup items.*1 → (k, v1) ∈ items → (k, v2) ∈ items → v1 = v2.
Proof.
  intros Hnd H1%dict_of_items_lookup H2%dict_of_items_lookup; congruence.
Qed.

(** The entry of a comprehension at the key of one of its items. *)
Lemma dict_comprehension_lookup_at keep items k v :
  NoDup items.*1 → (k, v) ∈ items →
  dict_comprehension keep items !! k = if keep v then Some v else None.
Proof.
  intros Hnd Hin. destruct (keep v) eqn:Hk.
  - by apply dict_comprehension_lookup.
  - apply dict_comprehension_lookup_None; [done|]. intros v' Hin'.
    by rewrite (items_functional items k v' v).
Qed.

Lemma dict_update_lookup d other k :
  dict_update d other !! k
  = match other !! k with Some v => Some v | None => d !! k end.
Proof.
  unfold dict_update. destruct (other !! k) as [v|] eqn:Hk.
  - by apply lookup_union_Some_l.
  - by rewrite lookup_union_r.
Qed.
End Dictionaries.

(** ** Serialization *)

(** Membership of a pair in a tuple of fields, and its inversion. *)
Ltac field_in :=
  unfold Message.fields, Glance.fields;
  repeat first [ apply list_elem_of_here | apply list_elem_of_further ].

Ltac field_cases H :=
  unfold Message.fields, Glance.fields in H;
  repeat (apply elem_of_cons in H as [H|H]; [simplify_eq|]);
  try (apply elem_of_nil in H; destruct H).

Lemma py_ne_empty_str (v : pyval) : py_ne v (PyStr "") = true ↔ v ≠ PyStr "".
Proof.
  unfold py_ne. rewrite negb_true_iff.
  destruct v as [| | | |s]; simpl; try (split; [discriminate|done]).
  rewrite String.eqb_neq. split; congruence.
Qed.

Section MessageJson.
Implicit Types (m : Message.t) (k : string) (v : pyval).

Lemma Message_fields_NoDup m : NoDup (Message.fields m).*1.
Proof. by apply (bool_decide_unpack _). Qed.

(** The serialized mapping holds the fields that are not the empty
    string, and nothing else. *)
Lemma Message_json_lookup m k v :
  Message.json m !! k = Some v ↔ (k, v) ∈ Message.fields m ∧ v ≠ PyStr "".
Proof.
  unfold Message.json.
  rewrite dict_comprehension_lookup by apply Message_fields_NoDup.
  by rewrite py_ne_empty_str.
Qed.

Lemma Message_json_str m k (s : string) :
  (k, PyStr s) ∈ Message.fields m →
  Message.json m !! k = if String.eqb s "" then None else Some (PyStr s).
Proof.
  intros Hin. unfold Message.json.
  rewrite (dict_comprehension_lookup_at _ _ k (PyStr s))
    by (apply Message_fields_NoDup || done).
  unfold py_ne. simpl. by destruct (String.eqb s "").
Qed.

Lemma Message_json_int m k (z : Z) :
  (k, PyInt z) ∈ Message.fields m → Message.json m !! k = Some (PyInt z).
Proof.
  intros Hin. apply Message_json_lookup. by split.
Qed.

Lemma Message_json_float m k (f : spec_float) :
  (k, PyFloat f) ∈ Message.fields m → Message.json m !! k = Some (PyFloat f).
Proof.
  intros Hin. apply Message_json_lookup. by split.
Qed.

Lemma Message_json_keys m k :
  is_Some (Message.json m !! k) → k ∈ (Message.fields m).*1.
Proof. apply dict_comprehension_keys, Message_fields_NoDup. Qed.
End MessageJson.

Section GlanceJson.
Implicit Types (g : Glance.t) (k : string) (v : pyval).

Lemma Glance_fields_NoDup g : NoDup (Glance.fields g).*1.
Proof. by apply (bool_decide_unpack _). Qed.

(** The filter [v is not None or v != 0] holds of every value. *)
Lemma Glance_filter_true v : negb (is_None v) || py_ne v (PyInt 0) = true.
Proof. by destruct v. Qed.

(** The serialized mapping of a Glance holds all five fields. *)
Lemma Glance_json_lookup g k v :
  Glance.json g !! k = Some v ↔ (k, v) ∈ Glance.fields g.
Proof.
  unfold Glance.json.
  rewrite dict_comprehension_lookup by apply Glance_fields_NoDup.
  rewrite Glance_filter_true. tauto.
Qed.

Lemma Glance_json_keys g k :
  is_Some (Glance.json g !! k) → k ∈ (Glance.fields g).*1.
Proof. apply dict_comprehension_keys, Glance_fields_NoDup. Qed.
End GlanceJson.

(** ** Message construction *)

Section MessageInit.
Variable fs : string → open_result.
Variable guess_type : string → option string.
Implicit Types (title attachment device url url_title sound : string).
Implicit Types (priority retry expire : Z) (timestamp : spec_float).

Lemma slice0_truncated (limit : nat) (input : string) :
  truncated limit input (slice0 input limit).
Proof.
  repeat split.
  - apply slice0_prefix.
  - apply slice0_le.
  - apply slice0_exact.
  - apply slice0_short.
Qed.

(** What a successful construction returns. *)
Lemma init_Ok_inv message title attachment device url url_title priority
    sound timestamp retry expire m :
  Message.__init__ fs guess_type message title attachment device url
    url_title priority sound timestamp retry expire = Ok m →
  ∃ text mime,
    message = Some text
    ∧ Message.check_attachment fs guess_type attachment = Ok mime
    ∧ m = {| Message.message := slice0 text 4096;
             Message.title := slice0 title 250;
             Message._attachment := attachment;
             Message._mime_test := mime;
             Message.device := device;
             Message.url := slice0 url 512;
             Message.url_title := slice0 url_title 100;
             Message.priority := priority;
             Message.sound := sound;
             Message.timestamp := timestamp;
             Message.retry := retry;
             Message.expire := expire;
             Message.response_data := None;
             Message._api_callback := "messages.json" |}.
Proof.
  unfold Message.__init__. destruct message as [text|]; [|discriminate].
  destruct (Message.check_attachment fs guess_type attachment) as [mime|e];
    simpl; [|discriminate].
  intros [= <-]. by exists text, mime.
Qed.

(** The attachment check has three failures and no other. *)
Lemma check_attachment_cases attachment :
  (∃ mime, Message.check_attachment fs guess_type attachment = Ok mime)
  ∨ Message.check_attachment fs guess_type attachment
    = Raise (FileNotFoundError "Must input a valid file!")
  ∨ Message.check_attachment fs guess_type attachment
    = Raise (ValueError "Attachment file must be valid jpeg/png image!")
  ∨ ∃ os_msg, Message.check_attachment fs guess_type attachment
              = Raise (OSError os_msg).
Proof.
  unfold Message.check_attachment, py_open.
  destruct (negb (String.eqb attachment "")); [|by eauto].
  destruct (fs attachment) as [|os_msg|os_msg]; simpl; [|by eauto|by eauto 6].
  destruct (Message.mime_not_in _ _); eauto.
Qed.

(** C1.  A constructed Message holds its message, title, url and
    url_title cut at 4096, 250, 512 and 100 characters: each stored text
    is an initial segment of the argument, at most the limit long, of
    exactly the limit's length when the argument is longer, and the
    argument itself when it is not. *)
Theorem Message_init_truncates text title attachment device url url_title
    priority sound timestamp retry expire m :
  Message.__init__ fs guess_type (Some text) title attachment device url
    url_title priority sound timestamp retry expire = Ok m →
  truncated 4096 text (Message.message m)
  ∧ truncated 250 title (Message.title m)
  ∧ truncated 512 url (Message.url m)
  ∧ truncated 100 url_title (Message.url_title m).
Proof.
  intros (text' & mime & [= <-] & _ & ->)%init_Ok_inv. simpl.
  auto using slice0_truncated.
Qed.
End MessageInit.

(** The run of C1: a text of 5000 characters is stored as its first
    4096. *)
Lemma Message_init_truncates_long_text :
  truncated 4096 Example.long_text (slice0 Example.long_text 4096)
  ∧ truncated 250 "Hi" "Hi"
  ∧ truncated 512 "" ""
  ∧ truncated 100 "" "".
Proof.
  exact (Message_init_truncates Example.fs Example.guess_type
           Example.long_text "Hi" "" "" "" "" 0 "pushover" (S754_zero false)
           30 10800
           {| Message.message := slice0 Example.long_text 4096;
              Message.title := "Hi";
              Message._attachment := ""; Message._mime_test := None;
              Message.device := ""; Message.url := "";
              Message.url_title := "";
              Message.priority := 0; Message.sound := "pushover";
              Message.timestamp := S754_zero false; Message.retry := 30;
              Message.expire := 10800; Message.response_data := None;
              Message._api_callback := "messages.json" |}
           eq_refl).
Defined.

Section MessageChecks.
Variable fs : string → open_result.
Variable guess_type : string → option string.
Implicit Types (title attachment device url url_title sound : string).
Implicit Types (priority retry expire : Z) (timestamp : spec_float).

Lemma check_attachment_missing attachment os_msg :
  attachment ≠ "" → fs attachment = NoSuchFile os_msg →
  Message.check_attachment fs guess_type attachment
  = Raise (FileNotFoundError "Must input a valid file!").
Proof.
  intros Hne%String.eqb_neq Hfs.
  unfold Message.check_attachment, py_open. by rewrite Hne, Hfs.
Qed.

Lemma mime_not_in_ATTACHMENT_TYPES (mime : option string) :
  Message.mime_not_in mime ATTACHMENT_TYPES = true
  ↔ mime ≠ Some "image/jpeg" ∧ mime ≠ Some "image/png".
Proof.
  destruct mime as [ty|]; simpl; [|by split].
  rewrite orb_false_r, negb_true_iff, orb_false_iff, !String.eqb_neq.
  split; intros [H1 H2]; split; congruence.
Qed.

Lemma check_attachment_bad_mime attachment :
  attachment ≠ "" → fs attachment = Opened →
  guess_type attachment ≠ Some "image/jpeg" →
  guess_type attachment ≠ Some "image/png" →
  Message.check_attachment fs guess_type attachment
  = Raise (ValueError "Attachment file must be valid jpeg/png image!").
Proof.
  intros Hne%String.eqb_neq Hfs Hjpeg Hpng.
  unfold Message.check_attachment, py_open. rewrite Hne, Hfs. simpl.
  by rewrite (proj2 (mime_not_in_ATTACHMENT_TYPES _) (conj Hjpeg Hpng)).
Qed.

(** C6.  With a non-empty attachment path that names no file, the
    constructor raises and returns no instance: the exception is the
    FileNotFoundError with which it rejects the path, or, when the
    message is None as well, the ValueError for the message, which is
    tested first. *)
Theorem Message_init_missing_file message title attachment device url
    url_title priority sound timestamp retry expire os_msg :
  attachment ≠ "" → fs attachment = NoSuchFile os_msg →
  Message.__init__ fs guess_type message title attachment device url
    url_title priority sound timestamp retry expire
  = Raise match message with
          | Some _ => FileNotFoundError "Must input a valid file!"
          | None => ValueError "'message' cannot be None!"
          end.
Proof.
  intros Hne Hfs. unfold Message.__init__.
  destruct message as [text|]; [|done].
  by rewrite (check_attachment_missing _ os_msg).
Qed.

(** C7.  With an attachment that opens and whose guessed MIME type is
    neither image/jpeg nor image/png, the constructor raises a
    ValueError and returns no instance. *)
Theorem Message_init_bad_mime message title attachment device url
    url_title priority sound timestamp retry expire :
  attachment ≠ "" → fs attachment = Opened →
  guess_type attachment ≠ Some "image/jpeg" →
  guess_type attachment ≠ Some "image/png" →
  Message.__init__ fs guess_type message title attachment device url
    url_title priority sound timestamp retry expire
  = Raise (ValueError match message with
                      | Some _ =>
                          "Attachment file must be valid jpeg/png image!"
                      | None => "'message' cannot be None!"
                      end).
Proof.
  intros Hne Hfs Hjpeg Hpng. unfold Message.__init__.
  destruct message as [text|]; [|done].
  by rewrite check_attachment_bad_mime.
Qed.

Lemma check_attachment_accepted attachment :
  attachment_accepted fs guess_type attachment →
  ∃ mime, Message.check_attachment fs guess_type attachment = Ok mime.
Proof.
  unfold Message.check_attachment, py_open.
  intros [->|[Hfs Hmime]]; [by eauto|].
  destruct (negb (String.eqb attachment "")); [|by eauto].
  rewrite Hfs. simpl.
  destruct (Message.mime_not_in _ _) eqn:Hnot; [|by eauto].
  apply mime_not_in_ATTACHMENT_TYPES in Hnot as [Hjpeg Hpng].
  by destruct Hmime.
Qed.

(** C8.  Whenever the attachment is one the constructor lets through,
    construction succeeds for every integer priority and every sound
    name, in or out of PRIORITIES and SOUNDS, and stores both as
    given. *)
Theorem Message_init_any_priority_sound text title attachment device url
    url_title priority sound timestamp retry expire :
  attachment_accepted fs guess_type attachment →
  ∃ m, Message.__init__ fs guess_type (Some text) title attachment device
         url url_title priority sound timestamp retry expire = Ok m
       ∧ Message.priority m = priority
       ∧ Message.sound m = sound.
Proof.
  intros [mime Hatt]%check_attachment_accepted.
  unfold Message.__init__. rewrite Hatt. simpl. eauto.
Qed.

(** C10.  The constructor raises its error for an absent message exactly
    when the message is None.  The empty string passes: it is accepted
    whenever any other text is, it is stored as it is, and the
    serialized mapping of the instance has no "message" key. *)
Theorem Message_init_empty_message title attachment device url url_title
    priority sound timestamp retry expire :
  (∀ message,
     Message.__init__ fs guess_type message title attachment device url
       url_title priority sound timestamp retry expire
     = Raise (ValueError "'message' cannot be None!")
     ↔ message = None)
  ∧ (∀ text,
       is_ok (Message.__init__ fs guess_type (Some "") title attachment
                device url url_title priority sound timestamp retry expire)
       = is_ok (Message.__init__ fs guess_type (Some text) title attachment
                  device url url_title priority sound timestamp retry
                  expire))
  ∧ (∀ m,
       Message.__init__ fs guess_type (Some "") title attachment device url
         url_title priority sound timestamp retry expire = Ok m →
       Message.message m = "" ∧ Message.json m !! "message" = None).
Proof.
  split; [|split].
  - intros message. split; [|by intros ->].
    destruct message as [text|]; [|done]. unfold Message.__init__.
    destruct (check_attachment_cases fs guess_type attachment)
      as [[mime ->]|[->|[->|[os_msg ->]]]]; simpl; discriminate.
  - intros text. unfold Message.__init__.
    by destruct (Message.check_attachment fs guess_type attachment).
  - intros m (text & mime & [= <-] & _ & ->)%init_Ok_inv. split; [done|].
    by rewrite (Message_json_str _ "message" (slice0 "" 4096))
      by field_in.
Qed.
End MessageChecks.

(** The run of C6: [ghost.png] is not in the example file system. *)
Lemma Message_init_missing_file_ghost :
  Message.__init__ Example.fs Example.guess_type (Some "test") "" "ghost.png"
    "" "" "" 0 "pushover" (S754_zero false) 30 10800
  = Raise (FileNotFoundError "Must input a valid file!").
Proof.
  apply (Message_init_missing_file Example.fs Example.guess_type (Some "test")
           "" "ghost.png" "" "" "" 0 "pushover" (S754_zero false) 30 10800
           "[Errno 2] No such file or directory");
    [discriminate | reflexivity].
Defined.

(** The run of C7: [notes.txt] exists and is guessed to be text/plain. *)
Lemma Message_init_bad_mime_notes :
  Message.__init__ Example.fs Example.guess_type (Some "test") "" "notes.txt"
    "" "" "" 0 "pushover" (S754_zero false) 30 10800
  = Raise (ValueError "Attachment file must be valid jpeg/png image!").
Proof.
  apply (Message_init_bad_mime Example.fs Example.guess_type (Some "test")
           "" "notes.txt" "" "" "" 0 "pushover" (S754_zero false) 30 10800);
    [discriminate | reflexivity | discriminate | discriminate].
Defined.

(** The run of C8: priority 7 and the sound [kazoo] are in neither
    enumeration. *)
Lemma Message_init_any_priority_sound_kazoo :
(7 ∉ PRIORITIES) ∧ ("kazoo" ∉ SOUNDS)
  ∧ ∃ m, Message.__init__ Example.fs Example.guess_type (Some "test") ""
           "cat.png" "" "" "" 7 "kazoo" (S754_zero false) 30 10800 = Ok m
         ∧ Message.priority m = 7
         ∧ Message.sound m = "kazoo".
Proof.
  split; [|split].
  - by apply (bool_decide_unpack _).
  - by apply (bool_decide_unpack _).
  - apply (Message_init_any_priority_sound Example.fs Example.guess_type
           "test" "" "cat.png" "" "" "" 7 "kazoo" (S754_zero false) 30 10800).
  right. split; [reflexivity|]. right. reflexivity.
Defined.

(** The run of C10: [Message("")] serializes without a "message" key. *)
Lemma Message_init_empty_message_bare :
  Message.message
    {| Message.message := ""; Message.title := "";
       Message._attachment := ""; Message._mime_test := None;
       Message.device := ""; Message.url := ""; Message.url_title := "";
       Message.priority := 0; Message.sound := "pushover";
       Message.timestamp := S754_zero false; Message.retry := 30;
       Message.expire := 10800; Message.response_data := None;
       Message._api_callback := "messages.json" |} = ""
  ∧ Message.json
      {| Message.message := ""; Message.title := "";
         Message._attachment := ""; Message._mime_test := None;
         Message.device := ""; Message.url := ""; Message.url_title := "";
         Message.priority := 0; Message.sound := "pushover";
         Message.timestamp := S754_zero false; Message.retry := 30;
         Message.expire := 10800; Message.response_data := None;
         Message._api_callback := "messages.json" |} !! "message" = None.
Proof.
  apply (Message_init_empty_message Example.fs Example.guess_type "" "" "" ""
           "" 0 "pushover" (S754_zero false) 30 10800).
  reflexivity.
Defined.

(** ** Message serialization *)

(** C3, amended.  The serialized mapping of a Message holds exactly the
    fields whose value is not the empty string.  The numeric fields are
    always there, a priority or timestamp of 0 included.  A Message whose
    optional texts (title, device, url, url_title, sound) are empty and
    whose message is not serializes to its message and the four numeric
    fields. *)
Theorem Message_json_omits_empty_strings (m : Message.t) :
  (∀ k v, Message.json m !! k = Some v
          ↔ (k, v) ∈ Message.fields m ∧ v ≠ PyStr "")
  ∧ Message.json m !! "priority" = Some (PyInt (Message.priority m))
  ∧ Message.json m !! "timestamp" = Some (PyFloat (Message.timestamp m))
  ∧ Message.json m !! "retry" = Some (PyInt (Message.retry m))
  ∧ Message.json m !! "expire" = Some (PyInt (Message.expire m))
  ∧ (Message.message m ≠ "" →
     Message.title m = "" → Message.device m = "" → Message.url m = "" →
     Message.url_title m = "" → Message.sound m = "" →
     Message.json m
     = dict_of_items [ ("message", PyStr (Message.message m));
                       ("priority", PyInt (Message.priority m));
                       ("timestamp", PyFloat (Message.timestamp m));
                       ("retry", PyInt (Message.retry m));
                       ("expire", PyInt (Message.expire m)) ]).
Proof.
  split; [apply Message_json_lookup|].
  repeat split;
    try (apply Message_json_int; field_in);
    try (apply Message_json_float; field_in).
  intros Hmsg Htitle Hdevice Hurl Hurl_title Hsound.
  apply map_eq. intros k.
  destruct (Message.json m !! k) as [v|] eqn:Hk; symmetry.
  - apply Message_json_lookup in Hk as [Hin Hv]. field_cases Hin; first [congruence | reflexivity].
  - apply dict_of_items_lookup_None. intros Hin. simpl in Hin.
    field_cases Hin.
    + rewrite (Message_json_str _ _ (Message.message m)) in Hk by field_in.
      apply String.eqb_neq in Hmsg. by rewrite Hmsg in Hk.
    + by rewrite (Message_json_int _ _ (Message.priority m)) in Hk by field_in.
    + by rewrite (Message_json_float _ _ (Message.timestamp m)) in Hk
        by field_in.
    + by rewrite (Message_json_int _ _ (Message.retry m)) in Hk by field_in.
    + by rewrite (Message_json_int _ _ (Message.expire m)) in Hk by field_in.
Qed.

(** The run of C3, amended: a Message without optional texts. *)
Lemma Message_json_omits_empty_strings_bare :
  Message.json Example.bare
  = dict_of_items [ ("message", PyStr "test"); ("priority", PyInt 0);
                    ("timestamp", PyFloat (S754_zero false));
                    ("retry", PyInt 30); ("expire", PyInt 10800) ].
Proof.
  apply (Message_json_omits_empty_strings Example.bare);
    [discriminate | reflexivity ..].
Defined.

(** C3, as stated, fails: the constructed [Message("test", title="Hi")]
    has priority 0 and timestamp 0.0, both falsy, and its serialized
    mapping holds both. *)
Lemma Message_json_keeps_zero :
  Message.__init__ Example.fs Example.guess_type (Some "test") "Hi" "" "" ""
    "" 0 "pushover" (S754_zero false) 30 10800 = Ok Example.hi
  ∧ Message.json Example.hi !! "priority" = Some (PyInt 0)
  ∧ Message.json Example.hi !! "timestamp" = Some (PyFloat (S754_zero false))
  ∧ ¬ omits_falsy (Message.json Example.hi).
Proof.
  split; [reflexivity|].
  assert (Message.json Example.hi !! "priority" = Some (PyInt 0)) as Hprio
    by (apply Message_json_int; field_in).
  split; [done|split].
  - apply Message_json_float; field_in.
  - intros Hall. by specialize (Hall "priority" (PyInt 0) Hprio).
Qed.

(** ** Glance construction *)

(** C2, as stated, fails: [Glance(percent=150)] is constructed and
    holds the percent 150, where the claim has it raise a ValueError. *)
Theorem Glance_init_accepts_percent_150 :
  Glance.__init__ PyNone PyNone PyNone (PyInt 0) (PyInt 150)
  = Ok {| Glance.title := ""; Glance.text := ""; Glance.subtext := "";
          Glance.count := PyInt 0; Glance.percent := PyInt 150;
          Glance._api_callback := "glances.json";
          Glance.response_data := None |}.
Proof. reflexivity. Qed.

(** C9.  For a percent that is an integer, in or out of [0,100], the
    range test is never evaluated and the constructor does not raise its
    percent error; with an integer count, construction succeeds and the
    percent is stored as given. *)
Theorem Glance_init_int_percent (title text subtext count percent : pyval) :
  isinstance_int percent = true →
  Glance.percent_rejected percent = Ok false
  ∧ Glance.__init__ title text subtext count percent
    ≠ Raise (ValueError "'percent' must be an integer between 0 and 100!")
  ∧ (isinstance_int count = true →
     ∃ g, Glance.__init__ title text subtext count percent = Ok g
          ∧ Glance.percent g = percent).
Proof.
  intros Hint.
  assert (Glance.percent_rejected percent = Ok false) as Hrej
    by (unfold Glance.percent_rejected; by rewrite Hint).
  split; [done|]. unfold Glance.__init__. rewrite Hrej.
  destruct (isinstance_int count); simpl; split; try discriminate; eauto.
Qed.

(** The run of C9: [Glance(percent=-5)]. *)
Lemma Glance_init_int_percent_minus_5 :
  Glance.percent_rejected (PyInt (-5)) = Ok false
  ∧ Glance.__init__ PyNone PyNone PyNone (PyInt 0) (PyInt (-5))
    ≠ Raise (ValueError "'percent' must be an integer between 0 and 100!")
  ∧ (isinstance_int (PyInt 0) = true →
     ∃ g, Glance.__init__ PyNone PyNone PyNone (PyInt 0) (PyInt (-5)) = Ok g
          ∧ Glance.percent g = PyInt (-5)).
Proof.
  apply (Glance_init_int_percent PyNone PyNone PyNone (PyInt 0) (PyInt (-5))).
  reflexivity.
Defined.

(** ** The client *)

Lemma payload_json_no_credentials (obj : payload) :
  payload_json obj !! "token" = None ∧ payload_json obj !! "user" = None.
Proof.
  destruct obj as [m|g]; simpl; split; apply eq_None_not_Some;
    intros Hin;
    (apply Message_json_keys in Hin || apply Glance_json_keys in Hin);
    revert Hin; by apply (bool_decide_unpack _).
Qed.

Section Send.
Variable fs : string → open_result.
Variable http : list request → request → result response.

Lemma attachment_upload_name (m : Message.t) (u : upload) :
  Message.attachment fs m = Ok (Some u) →
  upload_name u = Message._attachment m.
Proof.
  unfold Message.attachment, py_open.
  destruct (negb _); [|discriminate].
  destruct (fs _); simpl; try discriminate.
  destruct (Message._mime_test m); [|discriminate]. by intros [= <-].
Qed.

Lemma attachment_opens_Ok (m : Message.t) (files : option upload) :
  Message.attachment fs m = Ok files →
  Message.attachment_opens fs m
  = match files with Some _ => true | None => false end.
Proof.
  unfold Message.attachment, Message.attachment_opens.
  destruct (negb _); simpl; [|by intros [= <-]].
  destruct (py_open fs _) as [[]|e]; simpl; [|discriminate].
  destruct (Message._mime_test m); [|discriminate]. by intros [= <-].
Qed.

(** A constructed Message has files to send: its attachment, checked
    by the constructor, opens again. *)
Lemma constructed_attachment_files (guess_type : string → option string)
    message title attachment device url url_title priority sound timestamp
    retry expire (m : Message.t) :
  Message.__init__ fs guess_type message title attachment device url
    url_title priority sound timestamp retry expire = Ok m →
  ∃ files, attachment_files fs (MessageObj m) files.
Proof.
  intros (text & mime & -> & Hcheck & ->)%init_Ok_inv. simpl.
  revert Hcheck. unfold Message.check_attachment, Message.attachment. simpl.
  destruct (negb (String.eqb attachment "")); [|by eauto].
  unfold py_open. destruct (fs attachment); simpl; try discriminate.
  destruct (Message.mime_not_in _ _); [discriminate|].
  intros [= <-]. eauto.
Qed.

(** C4.  Sending the payload at [msg] issues one POST, to the payload's
    endpoint, whose form data is the credentials updated with the
    payload's serialized fields: it holds the token, the user key and
    every serialized field.  When the server answers [r], the payload
    object holds [r] as its response_data, the client's last_message is
    [msg], whatever it was, and [r] is returned. *)
Theorem Client_send_spec (σ : Client.state) (msg : Client.loc)
    (obj : payload) (files : option upload) (r : response) :
  let self := Client.client σ in
  let data :=
    dict_update
      (dict_of_items [ ("token", PyStr (Client.api_token self));
                       ("user", PyStr (Client.user_key self)) ])
      (payload_json obj) in
  let rq :=
    {| req_method := POST;
       req_url := Client._api_url self +:+ payload_api_callback obj;
       req_data := Some data; req_json := None; req_params := None;
       req_files := files |} in
  let σ' :=
    {| Client.client := Client.set_last_message msg self;
       Client.heap := <[msg := payload_set_response_data r obj]> (Client.heap σ);
       Client.requests := Client.requests σ ++ [rq];
       Client.opened := Client.opened σ ++ opened_paths files;
       Client.stdout := Client.stdout σ |} in
  Client.heap σ !! msg = Some obj →
  attachment_files fs obj files →
  http (Client.requests σ) rq = Ok r →
  Client.send fs http msg σ = (Ok r, σ')
  ∧ data !! "token" = Some (PyStr (Client.api_token self))
  ∧ data !! "user" = Some (PyStr (Client.user_key self))
  ∧ (∀ k v, payload_json obj !! k = Some v → data !! k = Some v)
  ∧ Client.last_message (Client.client σ') = Some msg
  ∧ payload_response_data <$> Client.heap σ' !! msg = Some (Some r).
Proof.
  intros self data rq σ' Hobj Hfiles Hhttp.
  destruct (payload_json_no_credentials obj) as [Htoken Huser].
  split; [|split; [|split; [|split; [|split]]]].
  - destruct σ as [c h rqs hs out]. subst self data rq σ'. simpl in *.
    unfold Client.send, mbind, Client.prog_bind, Client.get_self,
      Client.deref; simpl. rewrite Hobj.
    destruct obj as [m|g]; simpl in *.
    + unfold Client.getattr_attachment, Client.eval_attachment. simpl.
      rewrite Hfiles, (attachment_opens_Ok m files Hfiles).
      destruct files as [u|]; simpl;
        unfold Client.requests_post, Client.requests_call; simpl;
        rewrite Hhttp; simpl.
      * by rewrite (attachment_upload_name m u Hfiles), <- app_assoc.
      * by rewrite app_nil_r.
    + subst files.
      unfold Client.getattr_attachment, Client.eval_attachment,
        Client.raise, Client.requests_post, Client.requests_call. simpl.
      rewrite Hhttp. simpl. by rewrite app_nil_r.
  - unfold data. by rewrite dict_update_lookup, Htoken.
  - unfold data. by rewrite dict_update_lookup, Huser.
  - intros k v Hk. unfold data. by rewrite dict_update_lookup, Hk.
  - done.
  - unfold σ'. simpl. by rewrite lookup_insert_eq; destruct obj.
Qed.

Variable float_repr : spec_float → string.

(** C5.  Asking for a receipt with no receipt id, on a client that has
    sent nothing, raises the ValueError for the missing last message and
    leaves the state as it was: no request is issued. *)
Theorem Client_get_receipt_no_last_message (σ : Client.state) :
  Client.last_message (Client.client σ) = None →
  Client.get_receipt http float_repr None σ
  = (Raise (ValueError "No last message, please provide receipt!"), σ).
Proof.
  intros Hlast.
  unfold Client.get_receipt, mbind, Client.prog_bind, Client.get_self.
  simpl. by rewrite Hlast.
Qed.
End Send.

(** The run of C4: sending [Message("test", title="Hi")] posts message,
    title, user and token, and the answer ends up on the message. *)
Lemma Client_send_spec_hi :
  let data :=
    dict_update
      (dict_of_items [ ("token", PyStr "app-token");
                       ("user", PyStr "user-key") ])
      (Message.json Example.hi) in
  let rq :=
    {| req_method := POST;
       req_url := "https://api.pushover.net/1/messages.json";
       req_data := Some data; req_json := None; req_params := None;
       req_files := None |} in
  let σ' :=
    {| Client.client :=
         Client.set_last_message 1%positive
           (Client.__init__ "user-key" "app-token");
       Client.heap :=
         <[1%positive := MessageObj
             (Message.set_response_data Example.accepted Example.hi)]>
           (Client.heap Example.start);
       Client.requests := [rq];
       Client.opened := [];
       Client.stdout := [] |} in
  Client.send Example.fs Example.http 1%positive Example.start
  = (Ok Example.accepted, σ')
  ∧ data !! "token" = Some (PyStr "app-token")
  ∧ data !! "user" = Some (PyStr "user-key")
  ∧ (∀ k v, Message.json Example.hi !! k = Some v → data !! k = Some v)
  ∧ Client.last_message (Client.client σ') = Some 1%positive
  ∧ payload_response_data <$> Client.heap σ' !! 1%positive
    = Some (Some Example.accepted).
Proof.
  apply (Client_send_spec Example.fs Example.http Example.start 1%positive
           (MessageObj Example.hi) None Example.accepted);
    reflexivity.
Defined.

(** The run of C5: a fresh client is asked for a receipt. *)
Lemma Client_get_receipt_no_last_message_fresh :
  Client.get_receipt Example.http Example.float_repr None Example.start
  = (Raise (ValueError "No last message, please provide receipt!"),
     Example.start).
Proof.
  apply (Client_get_receipt_no_last_message Example.http Example.float_repr
           Example.start).
  reflexivity.
Defined.

(** * Further properties *)

(** ** Glance *)

Lemma dict_comprehension_all (keep : pyval → bool)
    (items : list (string * pyval)) :
  (∀ v, keep v = true) → dict_comprehension keep items = dict_of_items items.
Proof.
  intros Hkeep. unfold dict_comprehension. f_equal.
  induction items as [|kv items IH]; [done|].
  rewrite filter_cons_True by apply Hkeep. by rewrite IH.
Qed.

(** X1.  The serialized mapping of a Glance always holds all five fields,
    whatever their values: its filter lets every value through, so empty
    texts and a count or percent of 0 are sent too. *)
Theorem Glance_json_keeps_every_field (g : Glance.t) :
  Glance.json g = dict_of_items (Glance.fields g)
  ∧ Glance.json g !! "title" = Some (PyStr (Glance.title g))
  ∧ Glance.json g !! "text" = Some (PyStr (Glance.text g))
  ∧ Glance.json g !! "subtext" = Some (PyStr (Glance.subtext g))
  ∧ Glance.json g !! "count" = Some (Glance.count g)
  ∧ Glance.json g !! "percent" = Some (Glance.percent g).
Proof.
  split.
  - apply dict_comprehension_all, Glance_filter_true.
  - repeat split; apply Glance_json_lookup; field_in.
Qed.

Lemma Glance_init_Ok_inv (title text subtext count percent : pyval)
    (g : Glance.t) :
  Glance.__init__ title text subtext count percent = Ok g →
  isinstance_int count = true
  ∧ Glance.percent_rejected percent = Ok false
  ∧ g = {| Glance.title := Glance.text_field title;
           Glance.text := Glance.text_field text;
           Glance.subtext := Glance.text_field subtext;
           Glance.count := count; Glance.percent := percent;
           Glance._api_callback := "glances.json";
           Glance.response_data := None |}.
Proof.
  unfold Glance.__init__.
  destruct (isinstance_int count); simpl; [|discriminate].
  destruct (Glance.percent_rejected percent) as [[]|e]; simpl;
    try discriminate.
  by intros [= <-].
Qed.

Lemma text_field_glance_text (arg : pyval) :
  glance_text arg (Glance.text_field arg).
Proof. destruct arg; simpl; try done. apply slice0_truncated. Qed.

(** X2.  A constructed Glance holds each of title, text and subtext cut
    at 100 characters when the argument is a string, and the empty string
    when it is anything else (None, a number); count and percent are
    stored as given. *)
Theorem Glance_init_stores (title text subtext count percent : pyval)
    (g : Glance.t) :
  Glance.__init__ title text subtext count percent = Ok g →
  glance_text title (Glance.title g)
  ∧ glance_text text (Glance.text g)
  ∧ glance_text subtext (Glance.subtext g)
  ∧ Glance.count g = count
  ∧ Glance.percent g = percent.
Proof.
  intros (_ & _ & ->)%Glance_init_Ok_inv. simpl.
  auto using text_field_glance_text.
Qed.

(** The run of X2: a title of 5000 characters and no text. *)
Lemma Glance_init_stores_long_title :
  glance_text (PyStr Example.long_text) (slice0 Example.long_text 100)
  ∧ glance_text PyNone ""
  ∧ glance_text (PyInt 7) ""
  ∧ PyInt (-3) = PyInt (-3)
  ∧ PyInt 50 = PyInt 50.
Proof.
  exact (Glance_init_stores (PyStr Example.long_text) PyNone (PyInt 7)
           (PyInt (-3)) (PyInt 50)
           {| Glance.title := slice0 Example.long_text 100;
              Glance.text := ""; Glance.subtext := "";
              Glance.count := PyInt (-3); Glance.percent := PyInt 50;
              Glance._api_callback := "glances.json";
              Glance.response_data := None |}
           eq_refl).
Defined.

(** X3.  A count that is no integer makes the Glance constructor raise
    its count error, whatever the other arguments are: the count is
    tested before the percent. *)
Theorem Glance_init_count_not_int (title text subtext count percent : pyval) :
  isinstance_int count = false →
  Glance.__init__ title text subtext count percent
  = Raise (ValueError "'count' must be an integer!").
Proof. intros Hcount. unfold Glance.__init__. by rewrite Hcount. Qed.

(** The run of X3: [Glance(count="3", percent=None)]. *)
Lemma Glance_init_count_not_int_str :
  Glance.__init__ PyNone PyNone PyNone (PyStr "3") PyNone
  = Raise (ValueError "'count' must be an integer!").
Proof.
  apply (Glance_init_count_not_int PyNone PyNone PyNone (PyStr "3") PyNone).
  reflexivity.
Defined.

(** X4.  With an integer count and a percent that is no integer, the
    constructor compares the percent with 0 and 100: None or a string
    cannot be compared and raises a TypeError, not the ValueError of the
    constructor; a float is accepted exactly when it lies in [0,100], and
    is then stored as a float. *)
Theorem Glance_init_percent_not_int (title text subtext count percent : pyval) :
  isinstance_int count = true →
  isinstance_int percent = false →
  match percent with
  | PyFloat f =>
      (float_between 0 100 f →
       ∃ g, Glance.__init__ title text subtext count percent = Ok g
            ∧ Glance.percent g = PyFloat f)
      ∧ (¬ float_between 0 100 f →
         Glance.__init__ title text subtext count percent
         = Raise (ValueError
                    "'percent' must be an integer between 0 and 100!"))
  | _ =>
      ∃ msg, Glance.__init__ title text subtext count percent
             = Raise (TypeError msg)
  end.
Proof.
  intros Hcount Hpercent. unfold Glance.__init__. rewrite Hcount. simpl.
  destruct percent as [|b|z|f|s]; try discriminate; [by eexists| |by eexists].
  unfold Glance.percent_rejected, chained_le, float_between. simpl.
  destruct (float_cmp_Z f 0) as [[]|]; simpl;
    destruct (float_cmp_Z f 100) as [[]|]; simpl;
    (split; [intros [[?|?] [?|?]]; (discriminate || eauto)
            |intros Hnot; try done; exfalso; apply Hnot; by eauto]).
Qed.

(** The run of X4: [Glance(percent=1.5)]. *)
Lemma Glance_init_percent_not_int_float :
  ∃ g, Glance.__init__ PyNone PyNone PyNone (PyInt 0)
         (PyFloat (S754_finite false 3 (-1))) = Ok g
       ∧ Glance.percent g = PyFloat (S754_finite false 3 (-1)).
Proof.
  apply (proj1 (Glance_init_percent_not_int PyNone PyNone PyNone (PyInt 0)
                  (PyFloat (S754_finite false 3 (-1))) eq_refl eq_refl)).
  split; right; reflexivity.
Defined.

(** ** Message *)

Section MessageMore.
Variable fs : string → open_result.
Variable guess_type : string → option string.
Implicit Types (title attachment device url url_title sound : string).
Implicit Types (priority retry expire : Z) (timestamp : spec_float).

Lemma check_attachment_Ok_inv attachment mime :
  Message.check_attachment fs guess_type attachment = Ok mime →
  (attachment = "" ∧ mime = None)
  ∨ (attachment ≠ "" ∧ fs attachment = Opened
     ∧ mime = Some (guess_type attachment)
     ∧ (guess_type attachment = Some "image/jpeg"
        ∨ guess_type attachment = Some "image/png")).
Proof.
  unfold Message.check_attachment, py_open.
  destruct (String.eqb attachment "") eqn:Hempty; simpl.
  - apply String.eqb_eq in Hempty. intros [= <-]. by left.
  - apply String.eqb_neq in Hempty.
    destruct (fs attachment); simpl; try discriminate.
    destruct (guess_type attachment) as [ty|]; simpl; [|discriminate].
    rewrite orb_false_r.
    destruct (String.eqb ty "image/jpeg") eqn:Hjpeg; simpl.
    + apply String.eqb_eq in Hjpeg as ->. intros [= <-]. right. auto.
    + destruct (String.eqb ty "image/png") eqn:Hpng; simpl; [|discriminate].
      apply String.eqb_eq in Hpng as ->. intros [= <-]. right. auto.
Qed.

(** X5.  Message construction succeeds exactly when the message is not
    None and the attachment is absent or an image file that opens.  No
    other argument is ever a reason to fail, and device, timestamp, retry
    and expire are stored as given: a retry below 30 or an expire above
    10800 is kept as it is. *)
Theorem Message_init_succeeds_iff message title attachment device url
    url_title priority sound timestamp retry expire :
  ((∃ m, Message.__init__ fs guess_type message title attachment device url
           url_title priority sound timestamp retry expire = Ok m)
   ↔ message ≠ None ∧ attachment_accepted fs guess_type attachment)
  ∧ (∀ m, Message.__init__ fs guess_type message title attachment device
            url url_title priority sound timestamp retry expire = Ok m →
          Message.device m = device
          ∧ Message.timestamp m = timestamp
          ∧ Message.retry m = retry
          ∧ Message.expire m = expire
          ∧ Message.response_data m = None).
Proof.
  split.
  - split.
    + intros [m (text & mime & -> & Hcheck & _)%init_Ok_inv].
      split; [done|].
      apply check_attachment_Ok_inv in Hcheck
        as [[-> _]|(_ & Hfs & _ & Hmime)]; [by left|by right].
    + intros [Hmsg [mime Hcheck]%check_attachment_accepted].
      destruct message as [text|]; [|done].
      unfold Message.__init__. rewrite Hcheck. simpl. eauto.
  - by intros m (text & mime & _ & _ & ->)%init_Ok_inv.
Qed.

(** X6.  When opening the attachment fails for another reason than a
    missing file (a directory, no permission), the constructor lets the
    operating system's error through unchanged: only a missing file is
    turned into its own error. *)
Theorem Message_init_open_error text title attachment device url url_title
    priority sound timestamp retry expire os_msg :
  attachment ≠ "" → fs attachment = OpenFails os_msg →
  Message.__init__ fs guess_type (Some text) title attachment device url
    url_title priority sound timestamp retry expire
  = Raise (OSError os_msg).
Proof.
  intros Hne%String.eqb_neq Hfs.
  unfold Message.__init__, Message.check_attachment, py_open.
  by rewrite Hne, Hfs.
Qed.

(** X7.  The attachment property of a constructed Message: nothing when
    it was built without an attachment, and otherwise an upload of the
    path under the form field "attachment" with the accepted MIME type
    that was guessed for it. *)
Theorem Message_init_attachment message title attachment device url
    url_title priority sound timestamp retry expire m :
  Message.__init__ fs guess_type message title attachment device url
    url_title priority sound timestamp retry expire = Ok m →
  (attachment = "" → Message.attachment fs m = Ok None)
  ∧ (attachment ≠ "" →
     ∃ ty, ty ∈ ATTACHMENT_TYPES
           ∧ guess_type attachment = Some ty
           ∧ Message.attachment fs m
             = Ok (Some {| upload_field := "attachment";
                           upload_name := attachment;
                           upload_mime := Some ty |})).
Proof.
  intros (text & mime & -> & Hcheck & ->)%init_Ok_inv.
  unfold Message.attachment, py_open. simpl.
  apply check_attachment_Ok_inv in Hcheck
    as [[-> ->]|(Hne & Hfs & -> & Hmime)].
  - by split.
  - split; [done|]. intros _.
    apply String.eqb_neq in Hne. rewrite Hne, Hfs. simpl.
    destruct Hmime as [Hty|Hty]; rewrite Hty; eexists;
      (split; [|by split]); set_solver.
Qed.

(** X8.  What a constructed Message serializes is within the limits of
    the service: a text under the keys message, title, url or url_title
    is not empty and at most 4096, 250, 512 or 100 characters long. *)
Theorem Message_init_json_bounds message title attachment device url
    url_title priority sound timestamp retry expire m :
  Message.__init__ fs guess_type message title attachment device url
    url_title priority sound timestamp retry expire = Ok m →
  ∀ k limit s,
    (k, limit) ∈ [ ("message", 4096%nat); ("title", 250%nat);
                   ("url", 512%nat); ("url_title", 100%nat) ] →
    Message.json m !! k = Some (PyStr s) →
    s ≠ "" ∧ (String.length s ≤ limit)%nat.
Proof.
  intros (text & mime & -> & _ & ->)%init_Ok_inv k limit s Hk Hs.
  apply Message_json_lookup in Hs as [Hin Hne].
  split; [congruence|].
  field_cases Hk; field_cases Hin; apply slice0_le.
Qed.
End MessageMore.

(** The run of X5: a retry of 0 and an expire of 99999 are stored. *)
Lemma Message_init_succeeds_iff_retry_0 :
  Message.device
    {| Message.message := "test"; Message.title := "";
       Message._attachment := ""; Message._mime_test := None;
       Message.device := "phone"; Message.url := "";
       Message.url_title := ""; Message.priority := 2;
       Message.sound := "siren"; Message.timestamp := S754_zero false;
       Message.retry := 0; Message.expire := 99999;
       Message.response_data := None;
       Message._api_callback := "messages.json" |} = "phone"
  ∧ S754_zero false = S754_zero false
  ∧ 0 = 0
  ∧ 99999 = 99999
  ∧ @None response = None.
Proof.
  apply (proj2 (Message_init_succeeds_iff Example.fs Example.guess_type
                  (Some "test") "" "" "phone" "" "" 2 "siren"
                  (S754_zero false) 0 99999)).
  reflexivity.
Defined.

(** The run of X6: [locked.png] cannot be read. *)
Lemma Message_init_open_error_locked :
  Message.__init__
    (λ path, if String.eqb path "locked.png"
             then OpenFails "[Errno 13] Permission denied" else Example.fs path)
    Example.guess_type (Some "test") "" "locked.png" "" "" "" 0 "pushover"
    (S754_zero false) 30 10800
  = Raise (OSError "[Errno 13] Permission denied").
Proof.
  apply (Message_init_open_error
           (λ path, if String.eqb path "locked.png"
                    then OpenFails "[Errno 13] Permission denied"
                    else Example.fs path)
           Example.guess_type "test" "" "locked.png" "" "" "" 0 "pushover"
           (S754_zero false) 30 10800 "[Errno 13] Permission denied");
    [discriminate | reflexivity].
Defined.

(** The run of X7: [Message("test", attachment="cat.png")]. *)
Lemma Message_init_attachment_cat :
  ∃ ty, ty ∈ ATTACHMENT_TYPES
        ∧ Example.guess_type "cat.png" = Some ty
        ∧ Message.attachment Example.fs
            {| Message.message := "test"; Message.title := "";
               Message._attachment := "cat.png";
               Message._mime_test := Some (Some "image/png");
               Message.device := ""; Message.url := "";
               Message.url_title := "";
               Message.priority := 0; Message.sound := "pushover";
               Message.timestamp := S754_zero false; Message.retry := 30;
               Message.expire := 10800; Message.response_data := None;
               Message._api_callback := "messages.json" |}
          = Ok (Some {| upload_field := "attachment";
                        upload_name := "cat.png";
                        upload_mime := Some ty |}).
Proof.
  apply (proj2 (Message_init_attachment Example.fs Example.guess_type
                  (Some "test") "" "cat.png" "" "" "" 0 "pushover"
                  (S754_zero false) 30 10800 _ eq_refl)).
  discriminate.
Defined.

(** The run of X8: the message of a long text is within its limit. *)
Lemma Message_init_json_bounds_long_text :
  slice0 Example.long_text 4096 ≠ ""
  ∧ (String.length (slice0 Example.long_text 4096) ≤ 4096)%nat.
Proof.
  apply (Message_init_json_bounds Example.fs Example.guess_type
           (Some Example.long_text) "" "" "" "" "" 0 "pushover"
           (S754_zero false) 30 10800
           {| Message.message := slice0 Example.long_text 4096;
              Message.title := "";
              Message._attachment := ""; Message._mime_test := None;
              Message.device := ""; Message.url := "";
              Message.url_title := "";
              Message.priority := 0; Message.sound := "pushover";
              Message.timestamp := S754_zero false; Message.retry := 30;
              Message.expire := 10800; Message.response_data := None;
              Message._api_callback := "messages.json" |}
           eq_refl "message" 4096%nat).
  - apply list_elem_of_here.
  - apply Message_json_lookup. split; [field_in|].
    intros [= Hempty].
Defined.

(** ** Client *)

(** Running a method: its monadic steps, unfolded. *)
Ltac run :=
  unfold Client.send, Client.get_receipt, Client.verify_user,
    Client.get_limits, Client.getattr_attachment, Client.eval_attachment,
    Client.requests_post, Client.requests_get, Client.requests_call,
    Client.print, Client.assign, Client.put_self, Client.deref,
    Client.get_self, Client.lift, Client.raise, mbind, mret,
    Client.prog_bind, Client.prog_ret;
  simpl.

Lemma append_empty_r (s : string) : s +:+ "" = s.
Proof.
  induction s as [|c s IH]; [done|].
  change (String c (s +:+ "") = String c s). by rewrite IH.
Qed.

Lemma with_io_nil (σ : Client.state) : with_io σ [] [] = σ.
Proof. destruct σ. unfold with_io. simpl. by rewrite !app_nil_r. Qed.

Lemma payload_set_response_data_twice (r1 r2 : response) (obj : payload) :
  payload_set_response_data r2 (payload_set_response_data r1 obj)
  = payload_set_response_data r2 obj.
Proof. by destruct obj. Qed.

Section SendMore.
Variable fs : string → open_result.
Variable http : list request → request → result response.

Lemma attachment_files_set_response_data (r : response) (obj : payload)
    (files : option upload) :
  attachment_files fs obj files →
  attachment_files fs (payload_set_response_data r obj) files.
Proof. by destruct obj. Qed.

(** A send that is answered. *)
Lemma send_Ok (σ : Client.state) (msg : Client.loc) (obj : payload)
    (files : option upload) (r : response) :
  Client.heap σ !! msg = Some obj →
  attachment_files fs obj files →
  http (Client.requests σ) (send_request (Client.client σ) obj files) = Ok r →
  Client.send fs http msg σ = (Ok r, after_send σ msg obj files r).
Proof.
  intros Hobj Hfiles Hhttp. destruct σ as [c h rqs hs out].
  unfold after_send, send_request in *. simpl in *. run. rewrite Hobj.
  destruct obj as [m|g]; simpl in *.
  - rewrite Hfiles, (attachment_opens_Ok fs m files Hfiles).
    destruct files as [u|]; simpl; rewrite Hhttp; simpl.
    + by rewrite (attachment_upload_name fs m u Hfiles), <- app_assoc.
    + by rewrite app_nil_r.
  - subst files. rewrite Hhttp. simpl. by rewrite app_nil_r.
Qed.

(** X9.  When the transport fails, send raises the transport's error
    after the request has been issued: the payload keeps the
    response_data it had and the client's last_message is not changed. *)
Theorem Client_send_transport_failure (σ : Client.state) (msg : Client.loc)
    (obj : payload) (files : option upload) (e : exn) :
  Client.heap σ !! msg = Some obj →
  attachment_files fs obj files →
  http (Client.requests σ) (send_request (Client.client σ) obj files)
  = Raise e →
  Client.send fs http msg σ
  = (Raise e,
     {| Client.client := Client.client σ; Client.heap := Client.heap σ;
        Client.requests :=
          Client.requests σ ++ [send_request (Client.client σ) obj files];
        Client.opened := Client.opened σ ++ opened_paths files;
        Client.stdout := Client.stdout σ |}).
Proof.
  intros Hobj Hfiles Hhttp. destruct σ as [c h rqs hs out].
  unfold send_request in *. simpl in *. run. rewrite Hobj.
  destruct obj as [m|g]; simpl in *.
  - rewrite Hfiles, (attachment_opens_Ok fs m files Hfiles).
    destruct files as [u|]; simpl; rewrite Hhttp; simpl.
    + by rewrite (attachment_upload_name fs m u Hfiles), <- app_assoc.
    + by rewrite app_nil_r.
  - subst files. rewrite Hhttp. simpl. by rewrite app_nil_r.
Qed.

(** X10.  Sending a Message whose attachment file is no longer there
    raises the FileNotFoundError of the operating system before anything
    is sent: no request is issued and the state is left as it was. *)
Theorem Client_send_attachment_gone (σ : Client.state) (msg : Client.loc)
    (m : Message.t) (os_msg : string) :
  Client.heap σ !! msg = Some (MessageObj m) →
  Message._attachment m ≠ "" →
  fs (Message._attachment m) = NoSuchFile os_msg →
  Client.send fs http msg σ = (Raise (FileNotFoundError os_msg), σ).
Proof.
  intros Hobj Hne%String.eqb_neq Hfs. run. rewrite Hobj. simpl.
  unfold Message.attachment, Message.attachment_opens, py_open.
  by rewrite Hne, Hfs.
Qed.

(** X11.  The last_message slot holds one payload: after two payloads
    have been sent one after the other, it names the second, while each
    payload holds the response to its own request. *)
Theorem Client_send_two (σ : Client.state) (msg1 msg2 : Client.loc)
    (obj1 obj2 : payload) (files1 files2 : option upload)
    (r1 r2 : response) :
  let rq1 := send_request (Client.client σ) obj1 files1 in
  let rq2 := send_request (Client.client σ) obj2 files2 in
  let σ2 := after_send (after_send σ msg1 obj1 files1 r1) msg2 obj2 files2 r2 in
  msg1 ≠ msg2 →
  Client.heap σ !! msg1 = Some obj1 →
  Client.heap σ !! msg2 = Some obj2 →
  attachment_files fs obj1 files1 →
  attachment_files fs obj2 files2 →
  http (Client.requests σ) rq1 = Ok r1 →
  http (Client.requests σ ++ [rq1]) rq2 = Ok r2 →
  (Client.send fs http msg1 ≫= λ _, Client.send fs http msg2) σ = (Ok r2, σ2)
  ∧ Client.last_message (Client.client σ2) = Some msg2
  ∧ payload_response_data <$> Client.heap σ2 !! msg1 = Some (Some r1)
  ∧ payload_response_data <$> Client.heap σ2 !! msg2 = Some (Some r2)
  ∧ Client.requests σ2 = (Client.requests σ ++ [rq1; rq2])%list.
Proof.
  intros rq1 rq2 σ2 Hne Hobj1 Hobj2 Hfiles1 Hfiles2 Hhttp1 Hhttp2.
  split; [|split; [|split; [|split]]].
  - unfold mbind at 1, Client.prog_bind at 1.
    rewrite (send_Ok σ msg1 obj1 files1 r1) by done.
    apply send_Ok; [|done|done].
    simpl. by rewrite lookup_insert_ne.
  - done.
  - unfold σ2. simpl.
    rewrite lookup_insert_ne, lookup_insert_eq by done. by destruct obj1.
  - unfold σ2. simpl. rewrite lookup_insert_eq. by destruct obj2.
  - unfold σ2. simpl. by rewrite <- app_assoc.
Qed.

(** X12.  Sending the same payload again posts the same fields and
    replaces the response it holds: after two sends the payload holds
    the second response only. *)
Theorem Client_send_again (σ : Client.state) (msg : Client.loc)
    (obj : payload) (files : option upload) (r1 r2 : response) :
  let rq := send_request (Client.client σ) obj files in
  Client.heap σ !! msg = Some obj →
  attachment_files fs obj files →
  http (Client.requests σ) rq = Ok r1 →
  http (Client.requests σ ++ [rq]) rq = Ok r2 →
  (Client.send fs http msg ≫= λ _, Client.send fs http msg) σ
  = (Ok r2,
     {| Client.client := Client.set_last_message msg (Client.client σ);
        Client.heap :=
          <[msg := payload_set_response_data r2 obj]> (Client.heap σ);
        Client.requests := Client.requests σ ++ [rq; rq];
        Client.opened :=
          Client.opened σ ++ opened_paths files ++ opened_paths files;
        Client.stdout := Client.stdout σ |}).
Proof.
  intros rq Hobj Hfiles Hhttp1 Hhttp2.
  unfold mbind at 1, Client.prog_bind at 1.
  rewrite (send_Ok σ msg obj files r1) by done.
  rewrite (send_Ok _ msg (payload_set_response_data r1 obj) files r2).
  - unfold after_send. simpl.
    rewrite insert_insert_eq, payload_set_response_data_twice, <- !app_assoc.
    by destruct obj.
  - simpl. by rewrite lookup_insert_eq.
  - by apply attachment_files_set_response_data.
  - simpl. by destruct obj.
Qed.
End SendMore.

Section ReceiptsMore.
Variable fs : string → open_result.
Variable http : list request → request → result response.
Variable float_repr : spec_float → string.

(** X13.  With an explicit receipt id, get_receipt asks for that receipt
    whatever the client has sent before: one GET with the token as its
    only parameter, to receipts/<id>.json of the service for a client as
    the constructor builds it.  The answer's "acknowledged" member is
    printed and the answer returned; nothing else changes. *)
Theorem Client_get_receipt_explicit (σ : Client.state) (id : string)
    (r : response) (body : gmap string pyval) (ack : pyval) :
  let rq := receipt_request (Client.client σ) id in
  http (Client.requests σ) rq = Ok r →
  resp_json r = Ok body →
  body !! "acknowledged" = Some ack →
  Client.get_receipt http float_repr (Some id) σ
  = (Ok r,
     with_io σ [rq] ["Acknowledged: " +:+ Client.py_str float_repr ack])
  ∧ ∀ user_key api_token last,
      req_url (receipt_request
                 (Client.set_last_message last
                    (Client.__init__ user_key api_token)) id)
      = "https://api.pushover.net/1/receipts/" +:+ id +:+ ".json".
Proof.
  intros rq Hhttp Hjson Hack. split; [|done].
  subst rq. unfold receipt_request, with_io in *. run.
  rewrite Hhttp. simpl. rewrite Hjson. simpl.
  unfold getitem. rewrite Hack. simpl.
  by rewrite append_empty_r.
Qed.

(** X14.  A send followed by get_receipt without an id asks for the
    receipt named in the answer to that send: the GET goes to the
    receipt id found under "receipt" in the response the payload now
    holds. *)
Theorem Client_send_then_get_receipt (σ : Client.state) (msg : Client.loc)
    (obj : payload) (files : option upload) (r1 r2 : response)
    (body1 body2 : gmap string pyval) (id ack : pyval) :
  let rq1 := send_request (Client.client σ) obj files in
  let rq2 :=
    receipt_request (Client.client σ) (Client.py_str float_repr id) in
  Client.heap σ !! msg = Some obj →
  attachment_files fs obj files →
  http (Client.requests σ) rq1 = Ok r1 →
  resp_json r1 = Ok body1 →
  body1 !! "receipt" = Some id →
  http (Client.requests σ ++ [rq1]) rq2 = Ok r2 →
  resp_json r2 = Ok body2 →
  body2 !! "acknowledged" = Some ack →
  (Client.send fs http msg ≫= λ _, Client.get_receipt http float_repr None) σ
  = (Ok r2,
     with_io (after_send σ msg obj files r1) [rq2]
       ["Acknowledged: " +:+ Client.py_str float_repr ack]).
Proof.
  intros rq1 rq2 Hobj Hfiles Hhttp1 Hjson1 Hid Hhttp2 Hjson2 Hack.
  unfold mbind at 1, Client.prog_bind at 1.
  rewrite (send_Ok fs http σ msg obj files r1) by done.
  run. rewrite lookup_insert_eq.
  assert (payload_response_data (payload_set_response_data r1 obj) = Some r1)
    as -> by by destruct obj.
  rewrite Hjson1. simpl. unfold getitem. rewrite Hid. simpl.
  subst rq1 rq2. unfold receipt_request, with_io in *. simpl in *.
  rewrite Hhttp2. simpl. rewrite Hjson2. simpl. rewrite Hack. simpl.
  by rewrite append_empty_r.
Qed.

(** X15.  Without an id, get_receipt needs a receipt in the answer to
    the last send.  When that answer has no "receipt" member, as for a
    message that was no emergency, it raises KeyError and issues no
    request. *)
Theorem Client_get_receipt_no_receipt_key (σ : Client.state)
    (last : Client.loc) (obj : payload) (sent : response)
    (body : gmap string pyval) :
  Client.last_message (Client.client σ) = Some last →
  Client.heap σ !! last = Some obj →
  payload_response_data obj = Some sent →
  resp_json sent = Ok body →
  body !! "receipt" = None →
  Client.get_receipt http float_repr None σ = (Raise (KeyError "receipt"), σ).
Proof.
  intros Hlast Hobj Hsent Hjson Hid. run.
  rewrite Hlast, Hobj, Hsent. simpl. rewrite Hjson. simpl.
  unfold getitem. by rewrite Hid.
Qed.

(** X16.  verify_user posts the token and the user key as a JSON body to
    the validation endpoint, prints that the user is verified exactly
    when the answer's "status" equals 1, and returns the answer; the
    client and the payloads are left as they were. *)
Theorem Client_verify_user_spec (σ : Client.state) (r : response)
    (body : gmap string pyval) (status : pyval) :
  let rq := verify_request (Client.client σ) in
  http (Client.requests σ) rq = Ok r →
  resp_json r = Ok body →
  body !! "status" = Some status →
  Client.verify_user http σ
  = (Ok r,
     with_io σ [rq]
       [if py_eq status (PyInt 1) then "User is verified!"
        else "User is not verified!"])
  ∧ ∀ user_key api_token,
      req_url (verify_request (Client.__init__ user_key api_token))
      = "https://api.pushover.net/1/users/validate.json"
      ∧ req_json (verify_request (Client.__init__ user_key api_token))
        = Some (dict_of_items [ ("token", PyStr api_token);
                                ("user", PyStr user_key) ]).
Proof.
  intros rq Hhttp Hjson Hstatus. split; [|done].
  subst rq. unfold verify_request, with_io in *. run.
  rewrite Hhttp. simpl. rewrite Hjson. simpl.
  unfold getitem. rewrite Hstatus. simpl.
  by destruct (py_eq status (PyInt 1)).
Qed.
End ReceiptsMore.

Section Frames.
Variable fs : string → open_result.
Variable http : list request → request → result response.
Variable float_repr : spec_float → string.

Ltac asks_only_leaf :=
  first
    [ exists [], []; split; [by rewrite with_io_nil|]
    | eexists [_], []; split;
        [unfold with_io; simpl; by rewrite ?app_nil_r|]
    | eexists [_], [_]; split; [reflexivity|] ];
  split; [simpl; lia|split; [simpl; lia|]];
  intros ? ?; simplify_eq; eauto.

(** X17.  verify_user, get_limits and get_receipt only ask the server:
    whatever the outcome, they leave the client's fields, the payload
    objects and the opened files as they were, issue at most one request
    and print at most one line; and a response they return is the
    server's answer to the one request they issued. *)
Theorem Client_queries_ask_only (σ : Client.state) :
  asks_only http (Client.verify_user http) σ
  ∧ asks_only http (Client.get_limits http) σ
  ∧ ∀ receipt, asks_only http (Client.get_receipt http float_repr receipt) σ.
Proof.
  split; [|split; [|intros receipt]]; unfold asks_only; run;
    repeat case_match; simplify_eq/=; asks_only_leaf.
Qed.

(** X18.  What send never does.  It issues at most one request, prints
    nothing and leaves every other payload object alone.  When it
    raises, the client and all payloads are as before.  When it returns
    a response, that response is the server's answer to the one POST it
    issued, the payload holds it and last_message names the payload. *)
Theorem Client_send_frame (σ : Client.state) (msg : Client.loc) :
  let res := (Client.send fs http msg σ).1 in
  let σ' := (Client.send fs http msg σ).2 in
  ∃ new,
    Client.requests σ' = (Client.requests σ ++ new)%list
    ∧ (length new ≤ 1)%nat
    ∧ Client.stdout σ' = Client.stdout σ
    ∧ (∀ other, other ≠ msg →
                Client.heap σ' !! other = Client.heap σ !! other)
    ∧ (∀ e, res = Raise e →
            Client.client σ' = Client.client σ
            ∧ Client.heap σ' = Client.heap σ)
    ∧ (∀ r, res = Ok r →
            (∃ rq, new = [rq] ∧ req_method rq = POST
                   ∧ http (Client.requests σ) rq = Ok r)
            ∧ Client.last_message (Client.client σ') = Some msg
            ∧ payload_response_data <$> Client.heap σ' !! msg
              = Some (Some r)).
Proof.
  destruct σ as [c h rqs hs out]. run.
  repeat case_match; simplify_eq/=;
    (first [ exists []; split; [by rewrite app_nil_r|]
           | eexists [_]; split; [reflexivity|] ]);
    (split; [simpl; lia|]); (split; [done|]);
    (split; [intros other Hother; by rewrite ?lookup_insert_ne|]);
    (split; [intros ? ?; by simplify_eq|]);
    intros ? ?; simplify_eq;
    (split; [eauto|]); (split; [done|]);
    rewrite lookup_insert_eq; simpl; f_equal;
    match goal with |- payload_response_data (payload_set_response_data _ ?o) = _ =>
      by destruct o end.
Qed.
End Frames.

(** ** Runs *)

(** The run of X9: a send without a connection. *)
Lemma Client_send_transport_failure_offline :
  Client.send Example.fs Scenario.offline 1%positive Example.start
  = (Raise (RequestException "connection refused"),
     {| Client.client := Client.client Example.start;
        Client.heap := Client.heap Example.start;
        Client.requests :=
          [send_request (Client.client Example.start)
             (MessageObj Example.hi) None];
        Client.opened := [];
        Client.stdout := [] |}).
Proof.
  apply (Client_send_transport_failure Example.fs Scenario.offline
           Example.start 1%positive (MessageObj Example.hi) None
           (RequestException "connection refused"));
    reflexivity.
Defined.

(** The run of X10: the attachment has been removed since the message
    was built. *)
Lemma Client_send_attachment_gone_cat :
  Client.send Scenario.no_files Example.http 1%positive Scenario.with_cat
  = (Raise (FileNotFoundError "[Errno 2] No such file or directory"),
     Scenario.with_cat).
Proof.
  apply (Client_send_attachment_gone Scenario.no_files Example.http
           Scenario.with_cat 1%positive Scenario.cat
           "[Errno 2] No such file or directory");
    [reflexivity | discriminate | reflexivity].
Defined.

(** The run of X11: a message, then a glance. *)
Lemma Client_send_two_message_glance :
  (Client.send Example.fs Example.http 1%positive
   ≫= λ _, Client.send Example.fs Example.http 2%positive) Scenario.two
  = (Ok Example.accepted,
     after_send
       (after_send Scenario.two 1%positive (MessageObj Example.hi) None
          Example.accepted)
       2%positive (GlanceObj Scenario.glance) None Example.accepted).
Proof.
  apply (Client_send_two Example.fs Example.http Scenario.two 1%positive
           2%positive (MessageObj Example.hi) (GlanceObj Scenario.glance)
           None None Example.accepted Example.accepted);
    (discriminate || reflexivity).
Defined.

(** The run of X12: the same message, twice. *)
Lemma Client_send_again_hi :
  (Client.send Example.fs Example.http 1%positive
   ≫= λ _, Client.send Example.fs Example.http 1%positive) Example.start
  = (Ok Example.accepted,
     {| Client.client :=
          Client.set_last_message 1%positive (Client.client Example.start);
        Client.heap :=
          <[1%positive := payload_set_response_data Example.accepted
                            (MessageObj Example.hi)]>
            (Client.heap Example.start);
        Client.requests :=
          [send_request (Client.client Example.start)
             (MessageObj Example.hi) None;
           send_request (Client.client Example.start)
             (MessageObj Example.hi) None];
        Client.opened := [];
        Client.stdout := [] |}).
Proof.
  apply (Client_send_again Example.fs Example.http Example.start 1%positive
           (MessageObj Example.hi) None Example.accepted Example.accepted);
    reflexivity.
Defined.

(** The run of X13: the receipt [r7] is asked for by a fresh client. *)
Lemma Client_get_receipt_explicit_r7 :
  Client.get_receipt Scenario.http Example.float_repr (Some "r7")
    Example.start
  = (Ok Scenario.acknowledged,
     with_io Example.start
       [receipt_request (Client.client Example.start) "r7"]
       ["Acknowledged: 1"]).
Proof.
  apply (Client_get_receipt_explicit Scenario.http Example.float_repr
           Example.start "r7" Scenario.acknowledged
           (dict_of_items [ ("status", PyInt 1); ("acknowledged", PyInt 1) ])
           (PyInt 1));
    reflexivity.
Defined.

(** The run of X14: the server hands out the receipt [r1], which is then
    asked for. *)
Lemma Client_send_then_get_receipt_r1 :
  (Client.send Example.fs Scenario.http 1%positive
   ≫= λ _, Client.get_receipt Scenario.http Example.float_repr None)
    Example.start
  = (Ok Scenario.acknowledged,
     with_io
       (after_send Example.start 1%positive (MessageObj Example.hi) None
          Example.accepted)
       [receipt_request (Client.client Example.start) "r1"]
       ["Acknowledged: 1"]).
Proof.
  apply (Client_send_then_get_receipt Example.fs Scenario.http
           Example.float_repr Example.start 1%positive
           (MessageObj Example.hi) None Example.accepted
           Scenario.acknowledged
           (dict_of_items [ ("status", PyInt 1); ("receipt", PyStr "r1") ])
           (dict_of_items [ ("status", PyInt 1); ("acknowledged", PyInt 1) ])
           (PyStr "r1") (PyInt 1));
    reflexivity.
Defined.

(** The run of X15: the last message was no emergency. *)
Lemma Client_get_receipt_no_receipt_key_plain :
  Client.get_receipt Scenario.http Example.float_repr None
    Scenario.sent_plain
  = (Raise (KeyError "receipt"), Scenario.sent_plain).
Proof.
  apply (Client_get_receipt_no_receipt_key Scenario.http Example.float_repr
           Scenario.sent_plain 1%positive
           (MessageObj (Message.set_response_data Scenario.plain Example.hi))
           Scenario.plain
           (dict_of_items [ ("status", PyInt 1); ("request", PyStr "q1") ]));
    reflexivity.
Defined.

(** The run of X16: the server answers with status 1. *)
Lemma Client_verify_user_spec_accepted :
  Client.verify_user Example.http Example.start
  = (Ok Example.accepted,
     with_io Example.start [verify_request (Client.client Example.start)]
       ["User is verified!"]).
Proof.
  apply (Client_verify_user_spec Example.http Example.start Example.accepted
           (dict_of_items [ ("status", PyInt 1); ("receipt", PyStr "r1") ])
           (PyInt 1));
    reflexivity.
Defined.
